(** * Serie A score predictor: data preparation, form lookup, inference
      and analytics views of [app/predictor.py] (and the training script
      [serieA.py], which carries the same derivation).

    The development is a shallow embedding.  A pandas [float64] cell is a
    finite value, kept as an exact rational, or NaN; a data frame is a
    list of rows in positional order; a Python [dict] with string keys is
    an association list in insertion order; an exception is a value of an
    error monad. *)

From Stdlib Require Import ZArith QArith Qround Qabs Lqa List String Ascii Bool Lia.
From Stdlib Require Import Sorting.Sorted Sorting.Permutation.
From Stdlib Require OrderedTypeEx.
Import ListNotations.

Local Open Scope Q_scope.

(* ================================================================== *)
(** ** Cells, exceptions, dictionaries                                 *)
(* ================================================================== *)

(** A numeric cell: [Some q] is the finite value [q], [None] is NaN. *)
Definition num : Type := option Q.

Definition NaN : num := None.

(** Python comparisons on cells: every comparison with NaN is [False]. *)
Definition num_gt (a b : num) : bool :=
  match a, b with
  | Some x, Some y => negb (Qle_bool x y)
  | _, _ => false
  end.

Definition num_lt (a b : num) : bool := num_gt b a.

(** [Series.fillna(value)] on one cell. *)
Definition fillna (v : num) (fill : num) : num :=
  match v with
  | Some _ => v
  | None => fill
  end.

(** The exceptions the modelled code can meet.  [ModelNotLoadedError] is
    the name the design documents use; no statement of the program
    raises it. *)
Inductive exn : Type :=
| FileNotFoundError
| AttributeError
| KeyError
| ModelNotLoadedError.

Inductive result (A : Type) : Type :=
| Ok (a : A)
| Raise (e : exn).

Arguments Ok {A} a.
Arguments Raise {A} e.

Definition bind {A B : Type} (m : result A) (k : A -> result B) : result B :=
  match m with
  | Ok a => k a
  | Raise e => Raise e
  end.

Notation "x <- m ;; k" := (bind m (fun x => k))
  (at level 61, m at next level, right associativity).

(** A [dict] keyed by strings, in insertion order. *)
Definition Dict (V : Type) : Type := list (string * V).

Fixpoint dict_lookup {V : Type} (d : Dict V) (k : string) : option V :=
  match d with
  | [] => None
  | (k', v) :: d' => if String.eqb k k' then Some v else dict_lookup d' k
  end.

(** [d.get(k, default)] *)
Definition dict_get {V : Type} (d : Dict V) (k : string) (default : V) : V :=
  match dict_lookup d k with
  | Some v => v
  | None => default
  end.

(** [d[k]] *)
Definition dict_getitem {V : Type} (d : Dict V) (k : string) : result V :=
  match dict_lookup d k with
  | Some v => Ok v
  | None => Raise KeyError
  end.

(** [d[k] = v]: an existing key keeps its place. *)
Fixpoint dict_set {V : Type} (d : Dict V) (k : string) (v : V) : Dict V :=
  match d with
  | [] => [(k, v)]
  | (k', v') :: d' =>
      if String.eqb k k' then (k', v) :: d' else (k', v') :: dict_set d' k v
  end.

(** [{**d1, **d2}] *)
Definition dict_merge {V : Type} (d1 d2 : Dict V) : Dict V :=
  fold_left (fun d kv => dict_set d (fst kv) (snd kv)) d2 d1.

(* ================================================================== *)
(** ** numpy scalar helpers used by [predict]                          *)
(* ================================================================== *)

(** [np.round(x)]: nearest integer, a tie goes to the even neighbour. *)
Definition np_round (x : Q) : Q :=
  let f := Qfloor x in
  match (x - inject_Z f) ?= (1 # 2) with
  | Lt => inject_Z f
  | Gt => inject_Z (f + 1)
  | Eq => if Z.even f then inject_Z f else inject_Z (f + 1)
  end.

(** [np.clip(a, a_min, a_max)] *)
Definition np_clip (a a_min a_max : Q) : Q :=
  if Qle_bool a a_min then a_min
  else if Qle_bool a_max a then a_max
  else a.

(** [int(x)] on a float: truncation toward zero. *)
Definition py_int (x : Q) : Z := Z.quot (Qnum x) (Zpos (Qden x)).

(** The integer behind [np_round]. *)
Definition round_half_even (x : Q) : Z :=
  let f := Qfloor x in
  match Qcompare (x - inject_Z f)%Q (1 # 2)%Q with
  | Lt => f
  | Gt => (f + 1)%Z
  | Eq => if Z.even f then f else (f + 1)%Z
  end.


(* ================================================================== *)
(** ** The match table                                                 *)
(* ================================================================== *)

(** One line of [matches_seriea.csv] after the unused columns are
    dropped.  [date] is the parsed timestamp; a missing formation label
    is [None]. *)
Record RawRow : Type := mkRaw {
  date : Z;
  team : string;
  opponent : string;
  venue : string;
  formation : option string;
  opp_formation : option string;
  gf : num;
  ga : num;
  xg : num;
  xga : num
}.

(** A row of [self.df]: the csv line and the eight derived columns under
    their final names. *)
Record Row : Type := mkRow {
  raw :> RawRow;
  gm_form : num;
  ga_form : num;
  xg_form : num;
  xga_form : num;
  gf_vs_opp : num;
  ga_vs_opp : num;
  xg_vs_opp : num;
  xga_vs_opp : num
}.

Definition TEAM_FORM_COLS : list string :=
  ["gm_form"; "ga_form"; "xg_form"; "xga_form"]%string.

Definition MATCHUP_FORM_COLS : list string :=
  ["gf_vs_opp"; "ga_vs_opp"; "xg_vs_opp"; "xga_vs_opp"]%string.

Definition FEATURE_COLS : list string :=
  (["venue"; "team"; "opponent"; "formation"; "opp formation"]%string
     ++ TEAM_FORM_COLS ++ MATCHUP_FORM_COLS)%list.

(** The numeric cell of a row under a column label; [None] when the row
    has no numeric column of that name. *)
Definition row_lookup (r : Row) (col : string) : option num :=
  (if col =? "gf" then Some (gf r)
   else if col =? "ga" then Some (ga r)
   else if col =? "xg" then Some (xg r)
   else if col =? "xga" then Some (xga r)
   else if col =? "gm_form" then Some (gm_form r)
   else if col =? "ga_form" then Some (ga_form r)
   else if col =? "xg_form" then Some (xg_form r)
   else if col =? "xga_form" then Some (xga_form r)
   else if col =? "gf_vs_opp" then Some (gf_vs_opp r)
   else if col =? "ga_vs_opp" then Some (ga_vs_opp r)
   else if col =? "xg_vs_opp" then Some (xg_vs_opp r)
   else if col =? "xga_vs_opp" then Some (xga_vs_opp r)
   else None)%string.

(** [row.get(col, default)] *)
Definition row_get (r : Row) (col : string) (default : num) : num :=
  match row_lookup r col with
  | Some v => v
  | None => default
  end.

(* ================================================================== *)
(** ** pandas operations                                               *)
(* ================================================================== *)

Section Sorting.
Context {A : Type} (leb : A -> A -> bool).

Fixpoint insert_sorted (x : A) (l : list A) : list A :=
    match l with
    | [] => [x]
    | y :: l' => if leb x y then x :: l else y :: insert_sorted x l'
    end.

  (** [sort_values(keys)], ascending.  pandas leaves the order of rows
      with equal keys to the sorting algorithm; here such rows keep
      their order. *)
Definition sort_values (l : list A) : list A :=
    fold_right insert_sorted [] l.

  (** [sort_values(keys, ascending=False)]: pandas reverses the rows,
      sorts ascending and reverses the outcome. *)
Definition sort_values_desc (l : list A) : list A :=
    rev (sort_values (rev l)).
End Sorting.

(** [.head(n)]: the first [n] rows; for a negative [n], all rows but the
    last [-n]. *)
Definition head {A : Type} (n : Z) (l : list A) : list A :=
  if (0 <=? n)%Z then firstn (Z.to_nat n) l
  else firstn (List.length l - Z.to_nat (- n)) l.

(** [.iloc[-1]] of a frame that is not empty. *)
Definition iloc_last {A : Type} (l : list A) : option A :=
  match rev l with
  | [] => None
  | x :: _ => Some x
  end.

(** The sort keys the program uses. *)
Definition by_date (r1 r2 : RawRow) : bool := (date r1 <=? date r2)%Z.

Definition by_team_date (r1 r2 : RawRow) : bool :=
  if String.eqb (team r1) (team r2) then (date r1 <=? date r2)%Z
  else String.ltb (team r1) (team r2).

Definition by_team_opponent_date (r1 r2 : RawRow) : bool :=
  if String.eqb (team r1) (team r2) then
    if String.eqb (opponent r1) (opponent r2) then (date r1 <=? date r2)%Z
    else String.ltb (opponent r1) (opponent r2)
  else String.ltb (team r1) (team r2).

(** [Series.mean()]: NaN cells are skipped; the mean of no value is NaN. *)
Definition present (col : list num) : list Q :=
  flat_map (fun v => match v with Some q => [q] | None => [] end) col.

Definition Qsum (l : list Q) : Q := fold_right Qplus 0 l.

Definition mean (col : list num) : num :=
  match present col with
  | [] => NaN
  | vs => Some (Qsum vs / inject_Z (Z.of_nat (List.length vs)))
  end.

Section GroupBy.
Context {K : Type} (keq : K -> K -> bool).

  (** The cell of the nearest earlier row of the same group
      ([before] holds the earlier rows, nearest first). *)
Fixpoint prev_in_group (k : K) (before : list (K * num)) : num :=
    match before with
    | [] => NaN
    | (k', v) :: b => if keq k k' then v else prev_in_group k b
    end.

Fixpoint shift_from (before rows : list (K * num)) : list num :=
    match rows with
    | [] => []
    | (k, v) :: rest => prev_in_group k before :: shift_from ((k, v) :: before) rest
    end.

  (** [df.groupby(keys)[col].shift()]: a plain series, in the order of
      the frame, that holds for each row the cell of the previous row
      of its group, NaN for the first row of a group. *)
Definition groupby_shift (rows : list (K * num)) : list num :=
    shift_from [] rows.

  (** [df.groupby(keys)[col].transform("mean")] *)
Definition group_mean (rows : list (K * num)) (k : K) : num :=
    mean (map snd (filter (fun kv => keq k (fst kv)) rows)).

Definition transform_mean (rows : list (K * num)) : list num :=
    map (fun kv => group_mean rows (fst kv)) rows.
End GroupBy.

(** [Series.ewm(alpha, min_periods, adjust=False).mean()] with pandas'
    default [ignore_na=False]: one pass over the whole series.  The
    running average is kept across NaN cells, whose positions still age
    the old weight. *)
Record ewm_state : Type := mkEwm {
  weighted : num;
  old_wt : Q;
  nobs : nat
}.

Definition ewm_step (alpha : Q) (st : ewm_state) (cur : num) : ewm_state :=
  let nobs' := (nobs st + (match cur with Some _ => 1 | None => 0 end))%nat in
  match weighted st with
  | Some w =>
      let ow := old_wt st * (1 - alpha) in
      match cur with
      | Some c =>
          mkEwm (Some (if Qeq_bool w c then w
                       else (ow * w + alpha * c) / (ow + alpha)))
                1 nobs'
      | None => mkEwm (Some w) ow nobs'
      end
  | None => mkEwm cur (old_wt st) nobs'
  end.

Fixpoint ewm_scan (alpha : Q) (minp : nat) (st : ewm_state) (vals : list num)
  : list num :=
  match vals with
  | [] => []
  | cur :: rest =>
      let st' := ewm_step alpha st cur in
      (if (minp <=? nobs st')%nat then weighted st' else NaN)
        :: ewm_scan alpha minp st' rest
  end.

Definition ewm_mean (alpha : Q) (minp : nat) (vals : list num) : list num :=
  ewm_scan alpha minp (mkEwm NaN 1 0) vals.

(** [span] to [alpha]: [alpha = 2 / (span + 1)]. *)
Definition alpha_of_span (span : Q) : Q := 2 / (span + 1).

Definition string_pair_eqb (a b : string * string) : bool :=
  String.eqb (fst a) (fst b) && String.eqb (snd a) (snd b).

(* ================================================================== *)
(** ** [_prepare_dataset]                                              *)
(* ================================================================== *)

(** The frame while the derived columns are being built: each csv line
    with its derived cells, by column name. *)
Definition Frame : Type := list (RawRow * Dict num).

Definition on_row (leb : RawRow -> RawRow -> bool)
  (a b : RawRow * Dict num) : bool :=
  leb (fst a) (fst b).

(** [df[name]] for a derived column. *)
Definition column (name : string) (df : Frame) : list num :=
  map (fun rc => dict_get (snd rc) name NaN) df.

(** [df[name] = col], [col] being in the row order of [df]. *)
Definition assign (name : string) (df : Frame) (col : list num) : Frame :=
  map (fun p => (fst (fst p), dict_set (snd (fst p)) name (snd p)))
      (combine df col).

(** [for col in ["gf", "ga", "xg", "xga"]] *)
Definition METRICS : list (string * (RawRow -> num)) :=
  [("gf", gf); ("ga", ga); ("xg", xg); ("xga", xga)]%string.

Definition keyed {K : Type} (key : RawRow -> K) (col : RawRow -> num)
  (df : Frame) : list (K * num) :=
  map (fun rc => (key (fst rc), col (fst rc))) df.

(** [df.groupby("team")[col].shift().ewm(span=5, min_periods=1,
    adjust=False).mean()] *)
Definition ewm_team (col : RawRow -> num) (df : Frame) : list num :=
  ewm_mean (alpha_of_span 5) 1 (groupby_shift String.eqb (keyed team col df)).

(** [df.groupby(["team", "opponent"])[col].shift().ewm(alpha=0.6,
    min_periods=1, adjust=False).mean()] *)
Definition ewm_matchup (col : RawRow -> num) (df : Frame) : list num :=
  ewm_mean (6 # 10) 1
    (groupby_shift string_pair_eqb
       (keyed (fun r => (team r, opponent r)) col df)).

Definition add_ewm_team (df : Frame) (m : string * (RawRow -> num)) : Frame :=
  assign (String.append (fst m) "_ewm_team") df (ewm_team (snd m) df).

Definition add_ewm_matchup (df : Frame) (m : string * (RawRow -> num)) : Frame :=
  assign (String.append (fst m) "_ewm_matchup") df (ewm_matchup (snd m) df).

Definition ewm_cols : list string :=
  List.app (map (fun m => String.append (fst m) "_ewm_team") METRICS)
           (map (fun m => String.append (fst m) "_ewm_matchup") METRICS).

(** The three fills, on one column whose rows carry their team. *)
Definition fill_team_mean (rows : list (string * num)) : list (string * num) :=
  map (fun p => (fst (fst p), fillna (snd (fst p)) (snd p)))
      (combine rows (transform_mean String.eqb rows)).

Definition fill_scalar (fill : num) (rows : list (string * num))
  : list (string * num) :=
  map (fun kv => (fst kv, fillna (snd kv) fill)) rows.

Definition fill_column_mean (rows : list (string * num)) : list (string * num) :=
  fill_scalar (mean (map snd rows)) rows.

Definition team_keyed (name : string) (df : Frame) : list (string * num) :=
  map (fun rc => (team (fst rc), dict_get (snd rc) name NaN)) df.

(** The loop body of [app/predictor.py]:
    [team_mean = df.groupby("team")[col].transform("mean");
     df[col] = df[col].fillna(team_mean);
     df[col] = df[col].fillna(df[col].mean())] *)
Definition fill_means (df : Frame) (col : string) : Frame :=
  let df1 := assign col df (map snd (fill_team_mean (team_keyed col df))) in
  assign col df1 (map snd (fill_column_mean (team_keyed col df1))).

(** [df[ewm_cols] = df[ewm_cols].fillna(0.0)], column by column. *)
Definition fill_zero (df : Frame) (col : string) : Frame :=
  assign col df (map snd (fill_scalar (Some 0) (team_keyed col df))).

Definition fill_missing (df : Frame) : Frame :=
  fold_left fill_zero ewm_cols (fold_left fill_means ewm_cols df).

(** The two first loops of [serieA.py], which fills every column with
    the team means before any column mean is taken. *)
Definition fill_team_only (df : Frame) (col : string) : Frame :=
  assign col df (map snd (fill_team_mean (team_keyed col df))).

Definition fill_column_only (df : Frame) (col : string) : Frame :=
  assign col df (map snd (fill_column_mean (team_keyed col df))).

Definition fill_missing_script (df : Frame) : Frame :=
  fold_left fill_zero ewm_cols
    (fold_left fill_column_only ewm_cols
       (fold_left fill_team_only ewm_cols df)).

(** The three tiers on one cell: the cell itself, else the mean of its
    team, else the mean of the column as the first tier left it, else
    0.0. *)
Definition three_tier (cell team_mean column_mean : num) : num :=
  match cell with
  | Some v => Some v
  | None =>
      match team_mean with
      | Some m => Some m
      | None =>
          match column_mean with
          | Some g => Some g
          | None => Some 0
          end
      end
  end.

(** [df.rename(columns={...})] *)
Definition rename (rc : RawRow * Dict num) : Row :=
  let c := fun name => dict_get (snd rc) name NaN in
  (mkRow (fst rc)
     (c "gf_ewm_team") (c "ga_ewm_team") (c "xg_ewm_team") (c "xga_ewm_team")
     (c "gf_ewm_matchup") (c "ga_ewm_matchup") (c "xg_ewm_matchup")
     (c "xga_ewm_matchup"))%string.

Definition derive_team (csv : list RawRow) : Frame :=
  fold_left add_ewm_team METRICS
    (sort_values (on_row by_team_date) (map (fun r => (r, [])) csv)).

Definition derive_matchup (df : Frame) : Frame :=
  fold_left add_ewm_matchup METRICS
    (sort_values (on_row by_team_opponent_date) df).

Definition _prepare_dataset (csv : list RawRow) : list Row :=
  let df := derive_matchup (derive_team csv) in
  let df := sort_values (on_row by_team_date) df in
  map rename (fill_missing df).

(* ================================================================== *)
(** ** [PredictorService]                                              *)
(* ================================================================== *)

(** A value of the feature row and of the result dictionaries. *)
Inductive pyval : Type :=
| VStr (s : string)
| VNum (x : num).

(** The one-line frame handed to the encoder, in [FEATURE_COLS] order. *)
Definition FeatureRow : Type := Dict pyval.

(** The encoded row: the matrix line the regressors read. *)
Definition Encoded : Type := list Q.

(** The service object.  An artifact slot is [None] while the artifact
    is not loaded. *)
Record PredictorService : Type := mkService {
  df : list Row;
  preprocessor : option (FeatureRow -> Encoded);
  model_gf : option (Encoded -> Q);
  model_ga : option (Encoded -> Q);
  default_forms : Dict num
}.

(** The [date] sort key on rows of [self.df]. *)
Definition row_by_date (r1 r2 : Row) : bool := by_date r1 r2.

(** [df[cols].mean().fillna(0.0).to_dict()] *)
Definition compute_default_forms (d : list Row) : Dict num :=
  map (fun col => (col, fillna (mean (map (fun r => row_get r col NaN) d))
                               (Some 0)))
      (TEAM_FORM_COLS ++ MATCHUP_FORM_COLS)%list.

Definition _get_team_form (self : PredictorService) (t : string) : Dict num :=
  let history :=
    sort_values row_by_date (filter (fun r : Row => String.eqb (team r) t) (df self)) in
  match iloc_last history with
  | None =>
      map (fun col => (col, dict_get (default_forms self) col (Some 0)))
          TEAM_FORM_COLS
  | Some latest =>
      map (fun col =>
             (col, row_get latest col (dict_get (default_forms self) col (Some 0))))
          TEAM_FORM_COLS
  end.

Definition _get_matchup_form (self : PredictorService) (t o : string)
  : result (Dict num) :=
  let history :=
    sort_values row_by_date
      (filter (fun r : Row => String.eqb (team r) t && String.eqb (opponent r) o)
              (df self)) in
  match iloc_last history with
  | None =>
      let team_form := _get_team_form self t in
      a <- dict_getitem team_form "gm_form" ;;
      b <- dict_getitem team_form "ga_form" ;;
      c <- dict_getitem team_form "xg_form" ;;
      d <- dict_getitem team_form "xga_form" ;;
      Ok [("gf_vs_opp", a); ("ga_vs_opp", b); ("xg_vs_opp", c);
          ("xga_vs_opp", d)]%string
  | Some latest =>
      Ok (map (fun col =>
                 (col, row_get latest col
                         (dict_get (default_forms self) col (Some 0))))
              MATCHUP_FORM_COLS)
  end.

Definition nums (d : Dict num) : Dict pyval :=
  map (fun kv => (fst kv, VNum (snd kv))) d.

Definition _build_feature_row (self : PredictorService)
  (t o v f opf : string) : result FeatureRow :=
  let team_form := _get_team_form self t in
  matchup_form <- _get_matchup_form self t o ;;
  let row :=
    dict_merge
      (dict_merge
         [("venue", VStr v); ("team", VStr t); ("opponent", VStr o);
          ("formation", VStr f); ("opp formation", VStr opf)]%string
         (nums team_form))
      (nums matchup_form) in
  Ok (map (fun col => (col, dict_get row col (VNum NaN))) FEATURE_COLS).

Record Prediction : Type := mkPrediction {
  p_team : string;
  p_opponent : string;
  p_venue : string;
  p_formation : string;
  p_opp_formation : string;
  pred_goals_for : Q;
  pred_goals_against : Q;
  pred_goals_for_round : Z;
  pred_goals_against_round : Z;
  p_result : string
}.

(** [self.<artifact>.<method>(...)]: the call on an empty slot raises. *)
Definition artifact {A : Type} (slot : option A) : result A :=
  match slot with
  | Some a => Ok a
  | None => Raise AttributeError
  end.

Definition predict (self : PredictorService) (t o v f opf : string)
  : result Prediction :=
  feature_row <- _build_feature_row self t o v f opf ;;
  transform <- artifact (preprocessor self) ;;
  let feature_enc := transform feature_row in
  predict_gf <- artifact (model_gf self) ;;
  let pred_gf := predict_gf feature_enc in
  predict_ga <- artifact (model_ga self) ;;
  let pred_ga := predict_ga feature_enc in
  let pred_gf_round := py_int (np_clip (np_round pred_gf) 0 15) in
  let pred_ga_round := py_int (np_clip (np_round pred_ga) 0 15) in
  let result :=
    (if (pred_ga_round <? pred_gf_round)%Z then "W"
     else if (pred_gf_round <? pred_ga_round)%Z then "L"
     else "D")%string in
  Ok (mkPrediction t o v f opf pred_gf pred_ga pred_gf_round pred_ga_round
        result).

(** What [__init__] reads: the csv and the three pickled artifacts, each
    of which may be absent. *)
Record Files : Type := mkFiles {
  matches_csv : option (list RawRow);
  preprocessor_pkl : option (FeatureRow -> Encoded);
  model_gf_pkl : option (Encoded -> Q);
  model_ga_pkl : option (Encoded -> Q)
}.

(** [pd.read_csv(path)] and [joblib.load(path)] *)
Definition load {A : Type} (file : option A) : result A :=
  match file with
  | Some a => Ok a
  | None => Raise FileNotFoundError
  end.

Definition __init__ (fs : Files) : result PredictorService :=
  csv <- load (matches_csv fs) ;;
  let d := _prepare_dataset csv in
  pre <- load (preprocessor_pkl fs) ;;
  mgf <- load (model_gf_pkl fs) ;;
  mga <- load (model_ga_pkl fs) ;;
  Ok (mkService d (Some pre) (Some mgf) (Some mga) (compute_default_forms d)).

(* ================================================================== *)
(** ** Analytics views                                                 *)
(* ================================================================== *)

Definition list_teams (self : PredictorService) : list string :=
  sort_values String.leb (nodup string_dec (map (fun r : Row => team r) (df self))).

(** [series.dropna().unique()] *)
Definition dropna_unique (col : list (option string)) : list string :=
  nodup string_dec
    (flat_map (fun v => match v with Some s => [s] | None => [] end) col).

Definition list_formations (self : PredictorService) : list string :=
  let team_forms := dropna_unique (map (fun r : Row => formation r) (df self)) in
  let opp_forms := dropna_unique (map (fun r : Row => opp_formation r) (df self)) in
  sort_values String.leb (nodup string_dec (team_forms ++ opp_forms)%list).

Definition classify (g_for g_against : num) : string :=
  if num_gt g_for g_against then "W"
  else if num_lt g_for g_against then "L"
  else "D".

Definition recent_rows (self : PredictorService) (t : string) (limit : Z)
  : list Row :=
  head limit
    (sort_values_desc row_by_date
       (filter (fun r : Row => String.eqb (team r) t) (df self))).

Definition recent_results (self : PredictorService) (t : string) (limit : Z)
  : list string :=
  map (fun row : Row => classify (gf row) (ga row)) (recent_rows self t limit).

Record H2HRecord : Type := mkH2H {
  h_date : Z;
  h_team : string;
  h_opponent : string;
  h_gf : num;
  h_ga : num;
  h_result : string
}.

Definition h2h_rows (self : PredictorService) (t o : string) (limit : Z)
  : list Row :=
  head limit
    (sort_values_desc row_by_date
       (filter (fun r : Row =>
                  (String.eqb (team r) t && String.eqb (opponent r) o)
                  || (String.eqb (team r) o && String.eqb (opponent r) t))
               (df self))).

Definition h2h_record (t : string) (row : Row) : H2HRecord :=
  let primary_team := team row in
  let result :=
    (if String.eqb primary_team t then
       (if num_gt (gf row) (ga row) then "W"
        else if num_lt (gf row) (ga row) then "L"
        else "D")
     else
       (if num_lt (gf row) (ga row) then "W"
        else if num_gt (gf row) (ga row) then "L"
        else "D"))%string in
  mkH2H (date row) (team row) (opponent row) (gf row) (ga row) result.

Definition head_to_head (self : PredictorService) (t o : string) (limit : Z)
  : list H2HRecord :=
  map (h2h_record t) (h2h_rows self t o limit).

(* ================================================================== *)
(** ** The derivation as the design document words it                  *)
(* ================================================================== *)

(** Following the specification: [ewm[0] = x[0]],
    [ewm[i] = a * x[i] + (1 - a) * ewm[i-1]]. *)
Fixpoint spec_recurrence (a : Q) (e : Q) (xs : list Q) : Q :=
  match xs with
  | [] => e
  | x :: xs' => spec_recurrence a (a * x + (1 - a) * e) xs'
  end.

(** The average over a group's values so far; undefined over none. *)
Definition spec_ewm (a : Q) (xs : list Q) : num :=
  match xs with
  | [] => NaN
  | x0 :: rest => Some (spec_recurrence a x0 rest)
  end.

(** Following the specification: the form value of row [i] is the
    average over the strictly prior values of the group of row [i],
    starting afresh with each group. *)
Definition spec_form {K : Type} (keq : K -> K -> bool) (a : Q)
  (rows : list (K * Q)) (i : nat) : num :=
  match nth_error rows i with
  | None => NaN
  | Some (k, _) =>
      spec_ewm a (map snd (filter (fun kv => keq k (fst kv)) (firstn i rows)))
  end.

Definition spec_form_column {K : Type} (keq : K -> K -> bool) (a : Q)
  (rows : list (K * Q)) : list num :=
  map (spec_form keq a rows) (seq 0 (List.length rows)).

(** Cells compared as numbers. *)
Definition num_eqb (a b : num) : bool :=
  match a, b with
  | Some x, Some y => Qeq_bool x y
  | None, None => true
  | _, _ => false
  end.

Fixpoint col_eqb (c1 c2 : list num) : bool :=
  match c1, c2 with
  | [], [] => true
  | a :: c1', b :: c2' => num_eqb a b && col_eqb c1' c2'
  | _, _ => false
  end.


(** The state after a cell agrees with the recurrence over the values
    [pre] met so far. *)
Definition ewm_agrees (a : Q) (st : ewm_state) (pre : list Q) : Prop :=
  num_eqb (weighted st) (spec_ewm a pre) = true /\
  old_wt st = 1 /\
  (weighted st <> None -> (1 <=? nobs st)%nat = true).

(* ================================================================== *)
(** ** Concrete inputs                                                 *)
(* ================================================================== *)

(** A service whose regressors answer two fixed raw values. *)
Definition constant_service (raw_gf raw_ga : Q) : PredictorService :=
  mkService [] (Some (fun _ => [])) (Some (fun _ => raw_gf))
    (Some (fun _ => raw_ga)) [].


(** A small table: Inter and Milan meet on day 1, Inter plays Roma on
    day 3 and Juventus plays Milan on day 2 (and loses 0-1). *)
Definition sample_row (d : Z) (t o : string) (g_for g_against form vs : Q) : Row :=
  mkRow (mkRaw d t o "Home" (Some "4-3-3"%string) (Some "3-5-2"%string)
           (Some g_for) (Some g_against) (Some g_for) (Some g_against))
        (Some form) (Some (form + 1)) (Some (form + 2)) (Some (form + 3))
        (Some vs) (Some (vs + 1)) (Some (vs + 2)) (Some (vs + 3)).

Definition sample_df : list Row :=
  [ sample_row 3 "Inter" "Roma" 0 0 5 7;
    sample_row 1 "Inter" "Milan" 2 1 1 1;
    sample_row 1 "Milan" "Inter" 1 2 2 2;
    sample_row 2 "Juventus" "Milan" 0 1 4 4 ]%string.

Definition sample_service : PredictorService :=
  mkService sample_df (Some (fun _ => [])) (Some (fun _ => 2)) (Some (fun _ => 1))
    (compute_default_forms sample_df).

Definition raw_row (d : Z) (t o : string) (g_for g_against : Q) : RawRow :=
  mkRaw d t o "Home" (Some "4-3-3"%string) (Some "3-5-2"%string)
    (Some g_for) (Some g_against) (Some g_for) (Some g_against).

(** A frame whose column gf_ewm_team has gaps of each kind: team A has
    two missing cells and one value, team B has only a missing cell,
    team C has none missing; no other derived column has a value. *)
Definition gappy_frame : Frame :=
  [ (raw_row 1 "A" "C" 4 0, [("gf_ewm_team", NaN)]);
    (raw_row 2 "A" "C" 4 0, [("gf_ewm_team", NaN)]);
    (raw_row 3 "A" "C" 4 0, [("gf_ewm_team", Some 4)]);
    (raw_row 1 "B" "C" 1 1, [("gf_ewm_team", NaN)]);
    (raw_row 1 "C" "A" 0 4, [("gf_ewm_team", Some 0)]);
    (raw_row 2 "C" "A" 0 4, [("gf_ewm_team", Some 0)]) ]%string.

(** Two teams, two matches each against the same opponent: A scores 4
    twice, B scores 0 twice. *)
Definition two_team_csv : list RawRow :=
  [ raw_row 1 "A" "C" 4 0; raw_row 2 "A" "C" 4 0;
    raw_row 1 "B" "C" 0 1; raw_row 2 "B" "C" 0 1 ]%string.

(** The goals-for series of [two_team_csv] by team, and by team and
    opponent, in the order of the rows. *)
Definition two_team_gf : list (string * Q) :=
  [("A", 4); ("A", 4); ("B", 0); ("B", 0)]%string.

Definition two_team_matchup_gf : list ((string * string) * Q) :=
  [(("A", "C"), 4); (("A", "C"), 4); (("B", "C"), 0); (("B", "C"), 0)]%string.

(** A service object whose artifact slots are empty. *)
Definition unloaded_service : PredictorService :=
  mkService sample_df None None None (compute_default_forms sample_df).

Definition sample_files : Files :=
  mkFiles (Some two_team_csv) (Some (fun _ => [])) (Some (fun _ => 2))
    (Some (fun _ => 1)).

(** A table in which one row has no formation label and another has no
    label for the opponent. *)
Definition formation_df : list Row :=
  [ mkRow (mkRaw 1 "A" "B" "Home" (Some "4-4-2") (Some "3-5-2")
             (Some 1) (Some 0) (Some 1) (Some 0))%string
          NaN NaN NaN NaN NaN NaN NaN NaN;
    mkRow (mkRaw 2 "A" "C" "Away" None (Some "4-4-2")
             (Some 1) (Some 0) (Some 1) (Some 0))%string
          NaN NaN NaN NaN NaN NaN NaN NaN;
    mkRow (mkRaw 3 "B" "C" "Home" (Some "3-4-3") None
             (Some 1) (Some 0) (Some 1) (Some 0))%string
          NaN NaN NaN NaN NaN NaN NaN NaN ].

(* ================================================================== *)
(** ** Further definitions: views and endpoints                        *)
(* ================================================================== *)

(** The same match seen from the other side: a win is a loss. *)
Definition other_side (rec : H2HRecord) : H2HRecord :=
  mkH2H (h_date rec) (h_team rec) (h_opponent rec) (h_gf rec) (h_ga rec)
    (if String.eqb (h_result rec) "W" then "L"
     else if String.eqb (h_result rec) "L" then "W"
     else h_result rec)%string.

(** The rows of a team, and the rows between two teams. *)
Definition team_rows (self : PredictorService) (t : string) : list Row :=
  filter (fun r : Row => String.eqb (team r) t) (df self).

Definition shared_rows (self : PredictorService) (t o : string) : list Row :=
  filter (fun r : Row =>
            (String.eqb (team r) t && String.eqb (opponent r) o)
            || (String.eqb (team r) o && String.eqb (opponent r) t))
         (df self).

(** A derived cell of a frame row, and the eight form cells of a table
    row. *)
Definition derived_cell (rc : RawRow * Dict num) (name : string) : num :=
  dict_get (snd rc) name NaN.

Definition form_cells (r : Row) : list num :=
  [gm_form r; ga_form r; xg_form r; xga_form r;
   gf_vs_opp r; ga_vs_opp r; xg_vs_opp r; xga_vs_opp r].

(** A season of one team: Inter scores 1, 3 and 2. *)
Definition one_team_frame : Frame :=
  [ (raw_row 1 "Inter" "Milan" 1 0, []);
    (raw_row 2 "Inter" "Roma" 3 0, []);
    (raw_row 3 "Inter" "Lazio" 2 0, []) ]%string.

(** Python's [==] on cells: NaN is equal to nothing. *)
Definition num_eq (a b : num) : bool :=
  match a, b with
  | Some x, Some y => Qeq_bool x y
  | _, _ => false
  end.

(** A boolean as 0 or 1. *)
Definition indicator (b : bool) : Q := if b then 1 else 0.

(** [series.astype(int)] of a boolean column. *)
Definition as_int (b : bool) : num := Some (indicator b).

(** The [count] and [sum] aggregations: NaN cells are skipped. *)
Definition col_count (col : list num) : nat := List.length (present col).

Definition col_sum (col : list num) : Q := Qsum (present col).

(** [rate * 100.0] *)
Definition percent (rate : num) : num :=
  match rate with
  | Some q => Some (q * 100)
  | None => NaN
  end.

(** One record of [team_summary]. *)
Record TeamSummary : Type := mkSummary {
  s_team : string;
  s_matches : nat;
  s_avg_gf : num;
  s_avg_ga : num;
  s_avg_xg : num;
  s_total_gf : Q;
  s_total_ga : Q;
  s_win_rate : num;
  s_draw_rate : num;
  s_goal_diff : Q
}.

(** The aggregates of one group of [summary_df.groupby("team")]. *)
Definition summarize (t : string) (group : list Row) : TeamSummary :=
  let win := map (fun r : Row => as_int (num_gt (gf r) (ga r))) group in
  let draw := map (fun r : Row => as_int (num_eq (gf r) (ga r))) group in
  let total_gf := col_sum (map (fun r : Row => gf r) group) in
  let total_ga := col_sum (map (fun r : Row => ga r) group) in
  mkSummary t
    (col_count (map (fun r : Row => gf r) group))
    (mean (map (fun r : Row => gf r) group))
    (mean (map (fun r : Row => ga r) group))
    (mean (map (fun r : Row => xg r) group))
    total_gf total_ga
    (percent (mean win)) (percent (mean draw))
    (total_gf - total_ga).

(** [team_summary]: one record per team, the groups in the sorted order
    of their keys. *)
Definition team_summary (self : PredictorService) : list TeamSummary :=
  map (fun t =>
         summarize t (filter (fun r : Row => String.eqb (team r) t) (df self)))
      (sort_values String.leb
         (nodup string_dec (map (fun r : Row => team r) (df self)))).
(* ================================================================== *)
(** * Properties                                                       *)
(* ================================================================== *)

(** ** Rounding and clamping *)

Lemma np_round_inject (x : Q) : np_round x = inject_Z (round_half_even x).
Proof.
  unfold np_round, round_half_even.
  destruct (Qcompare (x - inject_Z (Qfloor x)) (1 # 2)); try reflexivity.
  destruct (Z.even (Qfloor x)); reflexivity.
Qed.

Lemma py_int_inject (z : Z) : py_int (inject_Z z) = z.
Proof. unfold py_int; simpl. apply Z.quot_1_r. Qed.

Lemma np_clip_inject (z lo hi : Z) :
  (lo <= hi)%Z ->
  np_clip (inject_Z z) (inject_Z lo) (inject_Z hi)
  = inject_Z (Z.max lo (Z.min hi z)).
Proof.
  intros Hlh. unfold np_clip.
  destruct (Qle_bool (inject_Z z) (inject_Z lo)) eqn:E1.
  - apply Qle_bool_iff in E1. rewrite <- Zle_Qle in E1.
    f_equal. lia.
  - assert (H1 : ~ (z <= lo)%Z).
    { intro H. rewrite Zle_Qle in H. apply Qle_bool_iff in H. congruence. }
    destruct (Qle_bool (inject_Z hi) (inject_Z z)) eqn:E2.
    + apply Qle_bool_iff in E2. rewrite <- Zle_Qle in E2. f_equal. lia.
    + assert (H2 : ~ (hi <= z)%Z).
      { intro H. rewrite Zle_Qle in H. apply Qle_bool_iff in H. congruence. }
      f_equal. lia.
Qed.

(** The rounded and clamped field, as [predict] computes it, is the
    clamp of the integer rounding. *)
Lemma round_field (x : Q) :
  py_int (np_clip (np_round x) 0 15)
  = Z.max 0 (Z.min 15 (round_half_even x)).
Proof.
  rewrite np_round_inject.
  change 0 with (inject_Z 0). change 15 with (inject_Z 15).
  rewrite np_clip_inject by lia. apply py_int_inject.
Qed.

Lemma floor_bounds (x : Q) :
  inject_Z (Qfloor x) <= x /\ x < inject_Z (Qfloor x) + 1.
Proof.
  split; [apply Qfloor_le|].
  pose proof (Qlt_floor x) as H. rewrite inject_Z_plus in H. exact H.
Qed.

Lemma inject_Z_le_below (k f : Z) :
  (k <= f)%Z -> inject_Z k <= inject_Z f.
Proof. intro H. now rewrite <- Zle_Qle. Qed.

Lemma inject_Z_le_above (k f : Z) :
  (f + 1 <= k)%Z -> inject_Z f + 1 <= inject_Z k.
Proof.
  intro H. change 1 with (inject_Z 1). rewrite <- inject_Z_plus.
  now rewrite <- Zle_Qle.
Qed.

(** [round_half_even x] is an integer nearest to [x]. *)
Lemma round_half_even_nearest (x : Q) (k : Z) :
  Qabs (x - inject_Z (round_half_even x)) <= Qabs (x - inject_Z k).
Proof.
  destruct (floor_bounds x) as [Hlo Hhi].
  assert (Hk : inject_Z k <= inject_Z (Qfloor x)
               \/ inject_Z (Qfloor x) + 1 <= inject_Z k).
  { destruct (Z_le_gt_dec k (Qfloor x)) as [H|H].
    - left. now apply inject_Z_le_below.
    - right. apply inject_Z_le_above. lia. }
  unfold round_half_even.
  destruct (Qcompare (x - inject_Z (Qfloor x)) (1 # 2)) eqn:E.
  - apply Qeq_alt in E.
    destruct (Z.even (Qfloor x)).
    + apply Qabs_case; intros; apply Qabs_case; intros; destruct Hk; lra.
    + rewrite inject_Z_plus. change (inject_Z 1) with 1.
      apply Qabs_case; intros; apply Qabs_case; intros; destruct Hk; lra.
  - apply Qlt_alt in E.
    apply Qabs_case; intros; apply Qabs_case; intros; destruct Hk; lra.
  - apply Qgt_alt in E.
    rewrite inject_Z_plus. change (inject_Z 1) with 1.
    apply Qabs_case; intros; apply Qabs_case; intros; destruct Hk; lra.
Qed.

(** On a tie the even neighbour is taken. *)
Lemma round_half_even_tie (x : Q) :
  Qabs (x - inject_Z (round_half_even x)) == 1 # 2 ->
  Z.even (round_half_even x) = true.
Proof.
  destruct (floor_bounds x) as [Hlo Hhi].
  unfold round_half_even.
  destruct (Qcompare (x - inject_Z (Qfloor x)) (1 # 2)) eqn:E.
  - intros _. destruct (Z.even (Qfloor x)) eqn:Ev; [exact Ev|].
    rewrite Z.even_add, Ev. reflexivity.
  - apply Qlt_alt in E. apply Qabs_case; intros; lra.
  - apply Qgt_alt in E. rewrite inject_Z_plus. change (inject_Z 1) with 1.
    apply Qabs_case; intros; lra.
Qed.

(** ** [predict] on a loaded service *)

Lemma team_form_keys (self : PredictorService) (t : string) :
  exists a b c d,
    _get_team_form self t
    = [("gm_form", a); ("ga_form", b); ("xg_form", c); ("xga_form", d)]%string.
Proof.
  unfold _get_team_form.
  destruct (iloc_last _); simpl; do 4 eexists; reflexivity.
Qed.

Lemma matchup_form_ok (self : PredictorService) (t o : string) :
  exists d, _get_matchup_form self t o = Ok d.
Proof.
  unfold _get_matchup_form.
  destruct (iloc_last _).
  - eexists; reflexivity.
  - destruct (team_form_keys self t) as (a & b & c & d & E).
    rewrite E. eexists; reflexivity.
Qed.

Lemma build_feature_row_ok (self : PredictorService) (t o v f opf : string) :
  exists row, _build_feature_row self t o v f opf = Ok row.
Proof.
  unfold _build_feature_row.
  destruct (matchup_form_ok self t o) as [d E]. rewrite E.
  eexists; reflexivity.
Qed.

(** With the three artifacts in place [predict] returns, and its record
    is computed from the two raw outputs of the regressors. *)
Lemma predict_loaded d pre mgf mga dflt (t o v f opf : string) :
  exists row,
    _build_feature_row (mkService d (Some pre) (Some mgf) (Some mga) dflt)
      t o v f opf = Ok row /\
    predict (mkService d (Some pre) (Some mgf) (Some mga) dflt) t o v f opf
    = Ok (let pred_gf := mgf (pre row) in
          let pred_ga := mga (pre row) in
          let gfr := py_int (np_clip (np_round pred_gf) 0 15) in
          let gar := py_int (np_clip (np_round pred_ga) 0 15) in
          mkPrediction t o v f opf pred_gf pred_ga gfr gar
            (if (gar <? gfr)%Z then "W"
             else if (gfr <? gar)%Z then "L" else "D")%string).
Proof.
  destruct (build_feature_row_ok
              (mkService d (Some pre) (Some mgf) (Some mga) dflt) t o v f opf)
    as [row E].
  exists row. split; [exact E|].
  unfold predict. rewrite E. reflexivity.
Qed.

(** C7: each "round" field of [predict] is the raw value rounded to a
    nearest integer, a tie going to the even neighbour, then clamped to
    [0, 15]; raw -0.3 gives 0, raw 15.9 gives 15, raw 2.5 gives 2. *)
Theorem C7_round_half_even_then_clamp :
  (forall d pre mgf mga dflt (t o v f opf : string),
      exists p,
        predict (mkService d (Some pre) (Some mgf) (Some mga) dflt) t o v f opf
        = Ok p /\
        pred_goals_for_round p
        = Z.max 0 (Z.min 15 (round_half_even (pred_goals_for p))) /\
        pred_goals_against_round p
        = Z.max 0 (Z.min 15 (round_half_even (pred_goals_against p)))) /\
  (forall (x : Q) (k : Z),
      Qabs (x - inject_Z (round_half_even x)) <= Qabs (x - inject_Z k)) /\
  (forall x : Q,
      Qabs (x - inject_Z (round_half_even x)) == 1 # 2 ->
      Z.even (round_half_even x) = true) /\
  (exists p,
      predict (constant_service (-3 # 10) (159 # 10)) "A" "B" "Home" "" "" = Ok p /\
      pred_goals_for_round p = 0%Z /\ pred_goals_against_round p = 15%Z) /\
  (exists p,
      predict (constant_service (5 # 2) (7 # 2)) "A" "B" "Home" "" "" = Ok p /\
      pred_goals_for_round p = 2%Z /\ pred_goals_against_round p = 4%Z).
Proof.
  split; [|split; [|split; [|split]]].
  - intros. destruct (predict_loaded d pre mgf mga dflt t o v f opf)
      as (row & _ & E).
    eexists. split; [exact E|]. cbv zeta. simpl.
    split; apply round_field.
  - apply round_half_even_nearest.
  - apply round_half_even_tie.
  - eexists. split; [reflexivity|]. split; reflexivity.
  - eexists. split; [reflexivity|]. split; reflexivity.
Qed.

(** C8: the result label of [predict] compares the two rounded integers:
    "W" when goals-for is the greater, "L" when it is the smaller, "D"
    when they are equal; raw 1.4 against 1.2 rounds to 1 and 1 and gives
    "D". *)
Theorem C8_result_from_rounded_goals :
  (forall d pre mgf mga dflt (t o v f opf : string),
      exists p,
        predict (mkService d (Some pre) (Some mgf) (Some mga) dflt) t o v f opf
        = Ok p /\
        ((pred_goals_for_round p > pred_goals_against_round p)%Z ->
         p_result p = "W"%string) /\
        ((pred_goals_for_round p < pred_goals_against_round p)%Z ->
         p_result p = "L"%string) /\
        (pred_goals_for_round p = pred_goals_against_round p ->
         p_result p = "D"%string)) /\
  (exists p,
      predict (constant_service (14 # 10) (12 # 10)) "A" "B" "Home" "" "" = Ok p /\
      pred_goals_for_round p = 1%Z /\ pred_goals_against_round p = 1%Z /\
      p_result p = "D"%string) /\
  (exists p,
      predict (constant_service 2 1) "A" "B" "Home" "" "" = Ok p /\
      p_result p = "W"%string) /\
  (exists p,
      predict (constant_service 0 3) "A" "B" "Home" "" "" = Ok p /\
      p_result p = "L"%string).
Proof.
  split; [|split; [|split]].
  - intros. destruct (predict_loaded d pre mgf mga dflt t o v f opf)
      as (row & _ & E).
    eexists. split; [exact E|]. cbv zeta. simpl.
    set (a := py_int _). set (b := py_int _).
    repeat split; intro H.
    + assert (Hb : (b <? a)%Z = true) by (apply Z.ltb_lt; lia).
      rewrite Hb. reflexivity.
    + assert (Hb : (b <? a)%Z = false) by (apply Z.ltb_ge; lia).
      assert (Ha : (a <? b)%Z = true) by (apply Z.ltb_lt; lia).
      rewrite Hb, Ha. reflexivity.
    + assert (Hb : (b <? a)%Z = false) by (apply Z.ltb_ge; lia).
      assert (Ha : (a <? b)%Z = false) by (apply Z.ltb_ge; lia).
      rewrite Hb, Ha. reflexivity.
  - eexists. split; [reflexivity|]. repeat split; reflexivity.
  - eexists. split; [reflexivity|]. reflexivity.
  - eexists. split; [reflexivity|]. reflexivity.
Qed.

(** ** Sorting, last row, first rows *)

Section SortingFacts.
Context {A : Type} (leb : A -> A -> bool).

Lemma insert_sorted_perm (x : A) (l : list A) :
    Permutation (x :: l) (insert_sorted leb x l).
  Proof.
    induction l as [|y l IH]; simpl.
    - apply Permutation_refl.
    - destruct (leb x y).
      + apply Permutation_refl.
      + eapply perm_trans; [apply perm_swap|]. now apply perm_skip.
  Qed.

Lemma sort_values_perm (l : list A) : Permutation l (sort_values leb l).
  Proof.
    induction l as [|x l IH]; simpl.
    - apply perm_nil.
    - eapply perm_trans; [apply perm_skip, IH|]. apply insert_sorted_perm.
  Qed.

Lemma sort_values_In (l : list A) (x : A) :
    In x (sort_values leb l) <-> In x l.
  Proof.
    split; intro H.
    - eapply Permutation_in; [apply Permutation_sym, sort_values_perm|exact H].
    - eapply Permutation_in; [apply sort_values_perm|exact H].
  Qed.

Lemma sort_values_nil (l : list A) : sort_values leb l = [] -> l = [].
  Proof.
    intro H. apply Permutation_nil. apply Permutation_sym.
    rewrite <- H. apply sort_values_perm.
  Qed.

Lemma sort_values_desc_In (l : list A) (x : A) :
    In x (sort_values_desc leb l) <-> In x l.
  Proof.
    unfold sort_values_desc.
    rewrite <- in_rev, sort_values_In, <- in_rev. reflexivity.
  Qed.

Hypothesis leb_total : forall a b, leb a b = true \/ leb b a = true.
Hypothesis leb_trans :
    forall a b c, leb a b = true -> leb b c = true -> leb a c = true.

Let le (a b : A) : Prop := leb a b = true.

Lemma insert_sorted_sorted (x : A) (l : list A) :
    StronglySorted le l -> StronglySorted le (insert_sorted leb x l).
  Proof.
    induction 1 as [|y l Hs IH Hall]; simpl.
    - constructor; constructor.
    - destruct (leb x y) eqn:E.
      + constructor; [constructor; assumption|].
        constructor; [exact E|].
        eapply Forall_impl; [|exact Hall].
        intros z Hz. eapply leb_trans; eassumption.
      + constructor; [exact IH|].
        assert (Hyx : le y x) by (destruct (leb_total x y); [congruence|assumption]).
        apply Forall_forall. intros z Hz.
        apply (Permutation_in _ (Permutation_sym (insert_sorted_perm x l))) in Hz.
        destruct Hz as [<-|Hz]; [exact Hyx|].
        rewrite Forall_forall in Hall. now apply Hall.
  Qed.

Lemma sort_values_sorted (l : list A) : StronglySorted le (sort_values leb l).
  Proof.
    induction l as [|x l IH]; simpl.
    - constructor.
    - now apply insert_sorted_sorted.
  Qed.
End SortingFacts.

Lemma StronglySorted_app_last {A : Type} (R : A -> A -> Prop) (l : list A) (x : A) :
  StronglySorted R (l ++ [x]) -> forall y, In y l -> R y x.
Proof.
  induction l as [|z l IH]; simpl; intros Hs y Hy; [contradiction|].
  inversion Hs as [|? ? Hs' Hall]; subst.
  destruct Hy as [<-|Hy].
  - rewrite Forall_forall in Hall. apply Hall, in_or_app. right. now left.
  - now apply IH.
Qed.

Lemma StronglySorted_snoc {A : Type} (R : A -> A -> Prop) (m : list A) (x : A) :
  StronglySorted R m -> (forall z, In z m -> R z x) ->
  StronglySorted R (m ++ [x]).
Proof.
  induction 1 as [|w m Hs IH Hall]; intros Hin; simpl.
  - constructor; constructor.
  - constructor.
    + apply IH. intros z Hz. apply Hin. now right.
    + apply Forall_forall. intros z Hz. apply in_app_or in Hz.
      destruct Hz as [Hz|[<-|[]]].
      * rewrite Forall_forall in Hall. now apply Hall.
      * apply Hin. now left.
Qed.

Lemma StronglySorted_rev {A : Type} (R : A -> A -> Prop) (l : list A) :
  StronglySorted R l -> StronglySorted (fun a b => R b a) (rev l).
Proof.
  induction 1 as [|x l Hs IH Hall]; simpl; [constructor|].
  apply StronglySorted_snoc; [exact IH|].
  intros z Hz. apply in_rev in Hz.
  rewrite Forall_forall in Hall. now apply Hall.
Qed.

Lemma firstn_In {A : Type} (n : nat) (l : list A) (x : A) :
  In x (firstn n l) -> In x l.
Proof.
  intro H. rewrite <- (firstn_skipn n l). apply in_or_app. now left.
Qed.

Lemma StronglySorted_firstn {A : Type} (R : A -> A -> Prop) (n : nat) (l : list A) :
  StronglySorted R l -> StronglySorted R (firstn n l).
Proof.
  intros Hs. revert n.
  induction Hs as [|x l Hs IH Hall]; intros [|n]; simpl; try constructor.
  - apply IH.
  - apply Forall_forall. intros y Hy. rewrite Forall_forall in Hall.
    apply Hall. revert Hy. apply firstn_In.
Qed.

Lemma iloc_last_spec {A : Type} (l : list A) :
  match iloc_last l with
  | None => l = []
  | Some x => exists l', l = l' ++ [x]
  end.
Proof.
  unfold iloc_last. destruct (rev l) as [|x r] eqn:E.
  - apply (f_equal (@rev A)) in E. rewrite rev_involutive in E. exact E.
  - exists (rev r). apply (f_equal (@rev A)) in E.
    rewrite rev_involutive in E. exact E.
Qed.

Lemma head_In {A : Type} (n : Z) (l : list A) (x : A) :
  In x (head n l) -> In x l.
Proof.
  unfold head. destruct (0 <=? n)%Z; apply firstn_In.
Qed.

Lemma head_length {A : Type} (n : Z) (l : list A) :
  (0 <= n)%Z -> (Z.of_nat (List.length (head n l)) <= n)%Z.
Proof.
  intro Hn. unfold head.
  destruct (0 <=? n)%Z eqn:E; [|apply Z.leb_gt in E; lia].
  rewrite length_firstn. lia.
Qed.

Lemma head_sorted {A : Type} (R : A -> A -> Prop) (n : Z) (l : list A) :
  StronglySorted R l -> StronglySorted R (head n l).
Proof.
  intro Hs. unfold head. destruct (0 <=? n)%Z; now apply StronglySorted_firstn.
Qed.

Lemma row_by_date_total (a b : Row) :
  row_by_date a b = true \/ row_by_date b a = true.
Proof.
  unfold row_by_date, by_date.
  destruct (Z.leb_spec (date a) (date b)); [now left|].
  right. apply Z.leb_le. lia.
Qed.

Lemma row_by_date_trans (a b c : Row) :
  row_by_date a b = true -> row_by_date b c = true -> row_by_date a c = true.
Proof.
  unfold row_by_date, by_date. rewrite !Z.leb_le. lia.
Qed.

(** ** Form resolver *)

Lemma latest_row_spec (rows : list Row) :
  match iloc_last (sort_values row_by_date rows) with
  | None => rows = []
  | Some latest =>
      In latest rows /\ forall r, In r rows -> (date r <= date latest)%Z
  end.
Proof.
  pose proof (iloc_last_spec (sort_values row_by_date rows)) as H.
  destruct (iloc_last (sort_values row_by_date rows)) as [latest|].
  - destruct H as [l' E].
    assert (Hin : forall r, In r rows <-> In r (l' ++ [latest])).
    { intro r. rewrite <- E. symmetry. apply sort_values_In. }
    split.
    + apply Hin, in_or_app. right. now left.
    + intros r Hr. apply Hin in Hr. apply in_app_or in Hr.
      destruct Hr as [Hr|[<-|[]]]; [|lia].
      pose proof (sort_values_sorted row_by_date row_by_date_total
                    row_by_date_trans rows) as Hs.
      rewrite E in Hs.
      pose proof (StronglySorted_app_last _ _ _ Hs r Hr) as Hle.
      unfold row_by_date, by_date in Hle. now apply Z.leb_le.
  - now apply sort_values_nil in H.
Qed.

Lemma filter_nil_iff {A : Type} (f : A -> bool) (l : list A) :
  filter f l = [] <-> forall x, In x l -> f x = false.
Proof.
  split.
  - intros H x Hx. destruct (f x) eqn:E; [|reflexivity].
    assert (Hin : In x (filter f l)) by (apply filter_In; now split).
    rewrite H in Hin. contradiction.
  - intro H. induction l as [|a l IH]; simpl; [reflexivity|].
    rewrite (H a) by now left. apply IH. intros x Hx. apply H. now right.
Qed.

(** C5: for a team with a row in the table, [_get_team_form] returns the
    four form cells of one row of that team whose date no other row of
    the team exceeds; for a team without a row it returns the default
    forms under the four team-form keys, which for the defaults that
    [__init__] computes are the column means, 0.0 where a mean is
    undefined. *)
Theorem C5_team_form_latest_row (self : PredictorService) (T : string) :
  ((exists r : Row, In r (df self) /\ team r = T) ->
   exists latest : Row,
     In latest (df self) /\ team latest = T /\
     (forall r : Row, In r (df self) -> team r = T ->
                      (date r <= date latest)%Z) /\
     _get_team_form self T
     = [("gm_form", gm_form latest); ("ga_form", ga_form latest);
        ("xg_form", xg_form latest); ("xga_form", xga_form latest)]%string) /\
  ((forall r : Row, In r (df self) -> team r <> T) ->
   _get_team_form self T
   = [("gm_form", dict_get (default_forms self) "gm_form" (Some 0));
      ("ga_form", dict_get (default_forms self) "ga_form" (Some 0));
      ("xg_form", dict_get (default_forms self) "xg_form" (Some 0));
      ("xga_form", dict_get (default_forms self) "xga_form" (Some 0))]%string) /\
  (default_forms self = compute_default_forms (df self) ->
   dict_get (default_forms self) "gm_form" (Some 0)
   = fillna (mean (map (fun r : Row => gm_form r) (df self))) (Some 0) /\
   dict_get (default_forms self) "ga_form" (Some 0)
   = fillna (mean (map (fun r : Row => ga_form r) (df self))) (Some 0) /\
   dict_get (default_forms self) "xg_form" (Some 0)
   = fillna (mean (map (fun r : Row => xg_form r) (df self))) (Some 0) /\
   dict_get (default_forms self) "xga_form" (Some 0)
   = fillna (mean (map (fun r : Row => xga_form r) (df self))) (Some 0)).
Proof.
  split; [|split].
  - intros (r0 & Hr0 & Ht0).
    unfold _get_team_form.
    pose proof (latest_row_spec
                  (filter (fun r : Row => String.eqb (team r) T) (df self))) as H.
    destruct (iloc_last _) as [latest|].
    + destruct H as [Hin Hmax].
      apply filter_In in Hin. destruct Hin as [Hin Heq].
      apply String.eqb_eq in Heq.
      exists latest. repeat split; try assumption.
      intros r Hr Ht. apply Hmax. apply filter_In. split; [exact Hr|].
      now apply String.eqb_eq.
    + exfalso.
      assert (Hin : In r0 (filter (fun r : Row => String.eqb (team r) T) (df self))).
      { apply filter_In. split; [exact Hr0|]. now apply String.eqb_eq. }
      rewrite H in Hin. contradiction.
  - intros Hnone. unfold _get_team_form.
    assert (E : filter (fun r : Row => String.eqb (team r) T) (df self) = []).
    { apply filter_nil_iff. intros x Hx. apply String.eqb_neq. now apply Hnone. }
    rewrite E. reflexivity.
  - intros ->. repeat split; reflexivity.
Qed.

Lemma C5_team_form_latest_row_witness :
  (exists r : Row, In r (df sample_service) /\ team r = "Inter"%string) /\
  _get_team_form sample_service "Inter"
  = [("gm_form", Some 5); ("ga_form", Some (5 + 1)); ("xg_form", Some (5 + 2));
     ("xga_form", Some (5 + 3))]%string /\
  (forall r : Row, In r (df sample_service) -> team r <> "Napoli"%string) /\
  exists a b c d,
    _get_team_form sample_service "Napoli"
    = [("gm_form", a); ("ga_form", b); ("xg_form", c); ("xga_form", d)]%string.
Proof.
  destruct (C5_team_form_latest_row sample_service "Napoli") as (_ & Hnone & _).
  assert (Hno : forall r : Row, In r (df sample_service) -> team r <> "Napoli"%string).
  { simpl. intros r [<-|[<-|[<-|[<-|[]]]]]; discriminate. }
  split; [exists (sample_row 3 "Inter" "Roma" 0 0 5 7); split; [now left|reflexivity]|].
  split; [reflexivity|].
  split; [exact Hno|].
  do 4 eexists. exact (Hnone Hno).
Defined.

(** C6: when no row has team [T] and opponent [O], [_get_matchup_form]
    returns the four values of [_get_team_form T] under the matchup
    keys: gm_form as gf_vs_opp, ga_form as ga_vs_opp, xg_form as
    xg_vs_opp, xga_form as xga_vs_opp. *)
Theorem C6_matchup_form_falls_back_to_team_form
  (self : PredictorService) (T O : string) :
  (forall r : Row, In r (df self) -> ~ (team r = T /\ opponent r = O)) ->
  exists gm ga xg xga : num,
    _get_team_form self T
    = [("gm_form", gm); ("ga_form", ga); ("xg_form", xg); ("xga_form", xga)]%string /\
    _get_matchup_form self T O
    = Ok [("gf_vs_opp", gm); ("ga_vs_opp", ga); ("xg_vs_opp", xg);
          ("xga_vs_opp", xga)]%string.
Proof.
  intros Hnone.
  destruct (team_form_keys self T) as (gm & ga & xg & xga & E).
  exists gm, ga, xg, xga. split; [exact E|].
  unfold _get_matchup_form.
  assert (Ef : filter (fun r : Row =>
                         String.eqb (team r) T && String.eqb (opponent r) O)
                      (df self) = []).
  { apply filter_nil_iff. intros x Hx.
    destruct (String.eqb (team x) T) eqn:E1; [|reflexivity].
    destruct (String.eqb (opponent x) O) eqn:E2; [|reflexivity].
    exfalso. apply (Hnone x Hx). split; now apply String.eqb_eq. }
  rewrite Ef, E. reflexivity.
Qed.

Lemma C6_matchup_form_falls_back_to_team_form_witness :
  (forall r : Row, In r (df sample_service) ->
                   ~ (team r = "Inter"%string /\ opponent r = "Juventus"%string)) /\
  exists gm ga xg xga : num,
    _get_team_form sample_service "Inter"
    = [("gm_form", gm); ("ga_form", ga); ("xg_form", xg); ("xga_form", xga)]%string /\
    _get_matchup_form sample_service "Inter" "Juventus"
    = Ok [("gf_vs_opp", gm); ("ga_vs_opp", ga); ("xg_vs_opp", xg);
          ("xga_vs_opp", xga)]%string.
Proof.
  assert (H : forall r : Row, In r (df sample_service) ->
                ~ (team r = "Inter"%string /\ opponent r = "Juventus"%string)).
  { simpl. intros r [<-|[<-|[<-|[<-|[]]]]] [H1 H2]; discriminate. }
  split; [exact H|].
  exact (C6_matchup_form_falls_back_to_team_form sample_service "Inter" "Juventus" H).
Defined.

(** ** Analytics views *)

Lemma sort_values_desc_perm {A : Type} (leb : A -> A -> bool) (l : list A) :
  Permutation l (sort_values_desc leb l).
Proof.
  unfold sort_values_desc.
  eapply perm_trans; [apply Permutation_rev|].
  eapply perm_trans; [apply sort_values_perm|].
  apply Permutation_rev.
Qed.

Lemma sort_values_desc_sorted (l : list Row) :
  StronglySorted (fun a b : Row => (date b <= date a)%Z)
    (sort_values_desc row_by_date l).
Proof.
  unfold sort_values_desc.
  pose proof (sort_values_sorted row_by_date row_by_date_total
                row_by_date_trans (rev l)) as Hs.
  apply StronglySorted_rev in Hs.
  eapply StronglySorted_ind with (P := StronglySorted _); [| |exact Hs].
  - constructor.
  - intros a m _ IH Hall. constructor; [exact IH|].
    eapply Forall_impl; [|exact Hall].
    intros b Hb. unfold row_by_date, by_date in Hb. now apply Z.leb_le.
Qed.

Lemma sorted_desc_strict (l : list Row) :
  StronglySorted (fun a b : Row => (date b <= date a)%Z) l ->
  NoDup (map (fun r : Row => date r) l) ->
  StronglySorted (fun a b : Row => (date b < date a)%Z) l.
Proof.
  induction 1 as [|x l Hs IH Hall]; intros Hnd; [constructor|].
  simpl in Hnd. inversion Hnd as [|? ? Hnotin Hnd']; subst.
  constructor; [now apply IH|].
  apply Forall_forall. intros b Hb.
  rewrite Forall_forall in Hall. specialize (Hall b Hb).
  assert (date b <> date x).
  { intro E. apply Hnotin. rewrite <- E.
    apply (in_map (fun r : Row => date r)). exact Hb. }
  lia.
Qed.

Lemma team_dates_NoDup (d : list Row) (T : string) :
  NoDup (map (fun r : Row => (team r, date r)) d) ->
  NoDup (map (fun r : Row => date r)
             (filter (fun r : Row => String.eqb (team r) T) d)).
Proof.
  induction d as [|x d IH]; simpl; intros Hnd; [constructor|].
  inversion Hnd as [|? ? Hnotin Hnd']; subst.
  destruct (String.eqb (team x) T) eqn:E; [|now apply IH].
  simpl. constructor; [|now apply IH].
  intro Hin. apply in_map_iff in Hin. destruct Hin as (y & Hy & Hyin).
  apply filter_In in Hyin. destruct Hyin as [Hyin Hty].
  apply String.eqb_eq in E. apply String.eqb_eq in Hty.
  apply Hnotin. apply in_map_iff. exists y. split; [|exact Hyin].
  congruence.
Qed.

Lemma classify_labels (a b : num) :
  classify a b = "W"%string \/ classify a b = "D"%string
  \/ classify a b = "L"%string.
Proof.
  unfold classify. destruct (num_gt a b); [now left|].
  destruct (num_lt a b); [now right; right|now right; left].
Qed.

(** C9: for a limit [n >= 0], on a table with one row per team and date,
    [recent_results T n] has at most [n] entries; they classify, in
    order, rows of [T] taken from the table whose dates strictly
    decrease; each entry is "W", "D" or "L", got from the row's gf and
    ga; a team without a row gets the empty list. *)
Theorem C9_recent_results_ordered_and_bounded
  (self : PredictorService) (T : string) (n : Z) :
  (0 <= n)%Z ->
  NoDup (map (fun r : Row => (team r, date r)) (df self)) ->
  exists rows : list Row,
    recent_results self T n = map (fun r : Row => classify (gf r) (ga r)) rows /\
    (Z.of_nat (List.length (recent_results self T n)) <= n)%Z /\
    (forall r : Row, In r rows -> In r (df self) /\ team r = T) /\
    StronglySorted (fun a b : Row => (date b < date a)%Z) rows /\
    (forall res : string,
        In res (recent_results self T n) ->
        res = "W"%string \/ res = "D"%string \/ res = "L"%string) /\
    ((forall r : Row, In r (df self) -> team r <> T) ->
     recent_results self T n = []).
Proof.
  intros Hn Huniq. exists (recent_rows self T n).
  split; [reflexivity|]. split; [|split; [|split; [|split]]].
  - unfold recent_results. rewrite length_map.
    unfold recent_rows. now apply head_length.
  - intros r Hr. unfold recent_rows in Hr.
    apply head_In in Hr. apply sort_values_desc_In in Hr.
    apply filter_In in Hr. destruct Hr as [Hin Ht].
    split; [exact Hin|]. now apply String.eqb_eq.
  - unfold recent_rows. apply head_sorted.
    apply sorted_desc_strict; [apply sort_values_desc_sorted|].
    eapply Permutation_NoDup; [|apply team_dates_NoDup, Huniq].
    apply Permutation_map, sort_values_desc_perm.
  - intros res Hres. unfold recent_results in Hres.
    apply in_map_iff in Hres. destruct Hres as (r & <- & _).
    apply classify_labels.
  - intros Hnone. unfold recent_results, recent_rows.
    assert (E : filter (fun r : Row => String.eqb (team r) T) (df self) = []).
    { apply filter_nil_iff. intros x Hx. apply String.eqb_neq. now apply Hnone. }
    rewrite E. unfold sort_values_desc, head. simpl.
    destruct (0 <=? n)%Z; [now rewrite firstn_nil|reflexivity].
Qed.

Lemma C9_recent_results_ordered_and_bounded_witness :
  (0 <= 5)%Z /\
  NoDup (map (fun r : Row => (team r, date r)) (df sample_service)) /\
  recent_results sample_service "Inter" 5 = ["D"; "W"]%string /\
  recent_results sample_service "Inter" 1 = ["D"]%string /\
  exists rows : list Row,
    recent_results sample_service "Inter" 5
    = map (fun r : Row => classify (gf r) (ga r)) rows /\
    StronglySorted (fun a b : Row => (date b < date a)%Z) rows.
Proof.
  assert (H5 : (0 <= 5)%Z) by lia.
  assert (Hu : NoDup (map (fun r : Row => (team r, date r)) (df sample_service))).
  { simpl. repeat constructor; simpl; intuition discriminate. }
  split; [exact H5|]. split; [exact Hu|].
  split; [reflexivity|]. split; [reflexivity|].
  destruct (C9_recent_results_ordered_and_bounded sample_service "Inter" 5 H5 Hu)
    as (rows & E & _ & _ & Hs & _).
  exists rows. split; [exact E|exact Hs].
Defined.

(** C2 as amended: every record of [head_to_head team opponent limit]
    copies a stored row between the two teams, and its result is taken
    from the side of the queried [team]: when the row's team is the
    queried team it is the classification of the row's gf against ga,
    otherwise it is the classification of ga against gf. *)
Theorem C2_head_to_head_result_for_queried_team
  (self : PredictorService) (t o : string) (limit : Z) (rec : H2HRecord) :
  In rec (head_to_head self t o limit) ->
  exists row : Row,
    In row (df self) /\
    ((team row = t /\ opponent row = o) \/ (team row = o /\ opponent row = t)) /\
    h_team rec = team row /\ h_opponent rec = opponent row /\
    h_gf rec = gf row /\ h_ga rec = ga row /\ h_date rec = date row /\
    (h_team rec = t -> h_result rec = classify (h_gf rec) (h_ga rec)) /\
    (h_team rec <> t -> h_result rec = classify (h_ga rec) (h_gf rec)).
Proof.
  intros Hin. unfold head_to_head in Hin.
  apply in_map_iff in Hin. destruct Hin as (row & <- & Hrow).
  unfold h2h_rows in Hrow. apply head_In in Hrow.
  apply sort_values_desc_In in Hrow. apply filter_In in Hrow.
  destruct Hrow as [Hin Hmask].
  exists row. split; [exact Hin|]. split.
  - apply orb_true_iff in Hmask.
    destruct Hmask as [H|H]; apply andb_true_iff in H; destruct H as [H1 H2];
      apply String.eqb_eq in H1; apply String.eqb_eq in H2; [left|right];
      now split.
  - simpl. repeat split.
    + intros E. apply String.eqb_eq in E. rewrite E. reflexivity.
    + intros E. apply String.eqb_neq in E. rewrite E. reflexivity.
Qed.

Lemma C2_head_to_head_result_for_queried_team_witness :
  In (mkH2H 1 "Milan" "Inter" (Some 1) (Some 2) "W")
     (head_to_head sample_service "Inter" "Milan" 5) /\
  exists row : Row,
    In row (df sample_service) /\ team row = "Milan"%string /\
    gf row = Some 1 /\ ga row = Some 2.
Proof.
  assert (Hin : In (mkH2H 1 "Milan" "Inter" (Some 1) (Some 2) "W")
                   (head_to_head sample_service "Inter" "Milan" 5)).
  { simpl. right. left. reflexivity. }
  split; [exact Hin|].
  destruct (C2_head_to_head_result_for_queried_team sample_service
              "Inter" "Milan" 5 _ Hin)
    as (row & Hrow & _ & Ht & _ & Hgf & Hga & _).
  exists row. simpl in Ht, Hgf, Hga. repeat split; congruence.
Defined.

(** C2 as stated fails: asked for Inter against Milan, the record of
    Milan's own row (Milan 1, Inter 2) carries "W", while from the side
    of the row's team, Milan, the match is lost. *)
Lemma C2_result_not_relative_to_row_team :
  ~ (forall (self : PredictorService) (t o : string) (limit : Z) (rec : H2HRecord),
        In rec (head_to_head self t o limit) ->
        h_result rec = classify (h_gf rec) (h_ga rec)).
Proof.
  intro H.
  specialize (H sample_service "Inter"%string "Milan"%string 5%Z
                (mkH2H 1 "Milan" "Inter" (Some 1) (Some 2) "W")).
  simpl in H. discriminate H. right. left. reflexivity.
Qed.

(** ** [list_formations] *)

Lemma string_leb_iff (a b : string) :
  String.leb a b = true <-> a = b \/ OrderedTypeEx.String_as_OT.lt a b.
Proof.
  unfold String.leb. split.
  - destruct (String.compare a b) eqn:E; intro H; try discriminate.
    + left. now apply OrderedTypeEx.String_as_OT.cmp_eq.
    + right. now apply OrderedTypeEx.String_as_OT.cmp_lt.
  - intros [->|H].
    + assert (E : String.compare b b = Eq) by now apply OrderedTypeEx.String_as_OT.cmp_eq.
      now rewrite E.
    + apply OrderedTypeEx.String_as_OT.cmp_lt in H. unfold OrderedTypeEx.String_as_OT.cmp in H.
      now rewrite H.
Qed.

Lemma string_leb_trans (a b c : string) :
  String.leb a b = true -> String.leb b c = true -> String.leb a c = true.
Proof.
  rewrite !string_leb_iff. intros [->|H1] [->|H2]; auto.
  right. eapply OrderedTypeEx.String_as_OT.lt_trans; eassumption.
Qed.

Lemma string_leb_neq_ltb (a b : string) :
  String.leb a b = true -> a <> b -> String.ltb a b = true.
Proof.
  unfold String.leb, String.ltb.
  destruct (String.compare a b) eqn:E; intros H Hne; try discriminate.
  - exfalso. apply Hne. now apply OrderedTypeEx.String_as_OT.cmp_eq.
  - reflexivity.
Qed.

Lemma sorted_leb_NoDup_ltb (l : list string) :
  StronglySorted (fun a b => String.leb a b = true) l -> NoDup l ->
  StronglySorted (fun a b => String.ltb a b = true) l.
Proof.
  induction 1 as [|x l Hs IH Hall]; intros Hnd; [constructor|].
  inversion Hnd as [|? ? Hnotin Hnd']; subst.
  constructor; [now apply IH|].
  apply Forall_forall. intros y Hy. rewrite Forall_forall in Hall.
  apply string_leb_neq_ltb; [now apply Hall|].
  intros ->. contradiction.
Qed.

Lemma dropna_unique_In (col : list (option string)) (s : string) :
  In s (dropna_unique col) <-> In (Some s) col.
Proof.
  unfold dropna_unique. rewrite nodup_In, in_flat_map. split.
  - intros (v & Hv & Hs). destruct v as [s'|]; simpl in Hs; [|contradiction].
    destruct Hs as [<-|[]]. exact Hv.
  - intro H. exists (Some s). split; [exact H|now left].
Qed.

(** C10: [list_formations] drops every missing formation cell before it
    aggregates: its output is strictly increasing in the lexicographic
    order of strings, hence sorted and free of duplicates, and a label
    is in it exactly when some row carries it, not missing, as its
    formation or as its opponent's formation. *)
Theorem C10_list_formations_sorted_union (self : PredictorService) :
  StronglySorted (fun a b => String.ltb a b = true) (list_formations self) /\
  NoDup (list_formations self) /\
  (forall s : string,
      In s (list_formations self) <->
      exists r : Row,
        In r (df self) /\ (formation r = Some s \/ opp_formation r = Some s)).
Proof.
  assert (Hnd : NoDup (list_formations self)).
  { unfold list_formations.
    eapply Permutation_NoDup; [apply sort_values_perm|]. apply NoDup_nodup. }
  split; [|split; [exact Hnd|]].
  - apply sorted_leb_NoDup_ltb; [|exact Hnd].
    unfold list_formations.
    apply sort_values_sorted; [apply String.leb_total|apply string_leb_trans].
  - intro s. unfold list_formations.
    rewrite sort_values_In, nodup_In, in_app_iff, !dropna_unique_In, !in_map_iff.
    split.
    + intros [(r & E & Hr)|(r & E & Hr)]; exists r; auto.
    + intros (r & Hr & [E|E]); [left|right]; exists r; auto.
Qed.

Example list_formations_skips_missing :
  list_formations (mkService formation_df None None None [])
  = ["3-4-3"; "3-5-2"; "4-4-2"]%string.
Proof. reflexivity. Qed.

(** ** Filling the missing cells *)

Lemma dict_lookup_set_same {V : Type} (d : Dict V) (k : string) (v : V) :
  dict_lookup (dict_set d k v) k = Some v.
Proof.
  induction d as [|[k' v'] d IH]; simpl.
  - now rewrite String.eqb_refl.
  - destruct (String.eqb k k') eqn:E; simpl; rewrite E; [reflexivity|exact IH].
Qed.

Lemma dict_lookup_set_other {V : Type} (d : Dict V) (k k' : string) (v : V) :
  k' <> k -> dict_lookup (dict_set d k v) k' = dict_lookup d k'.
Proof.
  intro Hne. induction d as [|[k0 v0] d IH]; simpl.
  - apply String.eqb_neq in Hne. now rewrite Hne.
  - destruct (String.eqb k k0) eqn:E; simpl.
    + apply String.eqb_eq in E. subst k0.
      apply String.eqb_neq in Hne. now rewrite Hne.
    + destruct (String.eqb k' k0); [reflexivity|exact IH].
Qed.

Lemma team_keyed_assign_same (name : string) (df : Frame)
  (rows : list (string * num)) :
  map fst rows = map fst (team_keyed name df) ->
  team_keyed name (assign name df (map snd rows)) = rows.
Proof.
  revert rows. induction df as [|[r cells] df IH]; intros [|[k v] rows];
    simpl; intro H; try discriminate; [reflexivity|].
  injection H as Hk Hrest. subst k.
  unfold assign, team_keyed in *. simpl.
  unfold dict_get at 1. rewrite dict_lookup_set_same.
  f_equal. now apply IH.
Qed.

Lemma team_keyed_assign_other (name name' : string) (df : Frame)
  (col : list num) :
  name' <> name -> List.length col = List.length df ->
  team_keyed name' (assign name df col) = team_keyed name' df.
Proof.
  intro Hne. revert col.
  induction df as [|[r cells] df IH]; intros [|v col]; simpl; intro H;
    try discriminate; [reflexivity|].
  unfold assign, team_keyed in *. simpl.
  unfold dict_get at 1 3. rewrite dict_lookup_set_other by exact Hne.
  f_equal. apply IH. now injection H.
Qed.

Lemma team_keyed_length (name : string) (df : Frame) :
  List.length (team_keyed name df) = List.length df.
Proof. unfold team_keyed. apply length_map. Qed.

Lemma combine_map_self {A B : Type} (f : A -> B) (l : list A) :
  combine l (map f l) = map (fun a => (a, f a)) l.
Proof. induction l as [|a l IH]; simpl; [reflexivity|now rewrite IH]. Qed.

Lemma fill_team_mean_pointwise (rows : list (string * num)) :
  fill_team_mean rows
  = map (fun kv => (fst kv, fillna (snd kv) (group_mean String.eqb rows (fst kv))))
        rows.
Proof.
  unfold fill_team_mean, transform_mean.
  rewrite combine_map_self, map_map. reflexivity.
Qed.

Lemma fill_team_mean_keys (rows : list (string * num)) :
  map fst (fill_team_mean rows) = map fst rows.
Proof. rewrite fill_team_mean_pointwise, map_map. reflexivity. Qed.

Lemma fill_scalar_keys (fill : num) (rows : list (string * num)) :
  map fst (fill_scalar fill rows) = map fst rows.
Proof. unfold fill_scalar. rewrite map_map. reflexivity. Qed.

(** What each loop body does to its own column and to the others. *)
Section ColumnSteps.
Variable step : Frame -> string -> Frame.
Variable F : list (string * num) -> list (string * num).
Hypothesis step_same :
    forall df col, team_keyed col (step df col) = F (team_keyed col df).
Hypothesis step_other :
    forall df col name, name <> col ->
                        team_keyed name (step df col) = team_keyed name df.

Lemma fold_step_other (cols : list string) (df : Frame) (name : string) :
    ~ In name cols ->
    team_keyed name (fold_left step cols df) = team_keyed name df.
  Proof.
    revert df. induction cols as [|c cols IH]; intros df Hnot; simpl;
      [reflexivity|].
    rewrite IH by (intro; apply Hnot; now right).
    apply step_other. intros ->. apply Hnot. now left.
  Qed.

Lemma fold_step_same (cols : list string) (df : Frame) (name : string) :
    NoDup cols -> In name cols ->
    team_keyed name (fold_left step cols df) = F (team_keyed name df).
  Proof.
    revert df. induction cols as [|c cols IH]; intros df Hnd Hin; simpl;
      [contradiction|].
    inversion Hnd as [|? ? Hnotin Hnd']; subst.
    destruct (string_dec name c) as [->|Hne].
    - rewrite fold_step_other by exact Hnotin. apply step_same.
    - destruct Hin as [E|Hin]; [congruence|].
      rewrite IH by assumption. f_equal. now apply step_other.
  Qed.
End ColumnSteps.

Lemma fill_team_only_same (df : Frame) (col : string) :
  team_keyed col (fill_team_only df col) = fill_team_mean (team_keyed col df).
Proof.
  unfold fill_team_only. apply team_keyed_assign_same, fill_team_mean_keys.
Qed.

Lemma fill_column_only_same (df : Frame) (col : string) :
  team_keyed col (fill_column_only df col) = fill_column_mean (team_keyed col df).
Proof.
  unfold fill_column_only. apply team_keyed_assign_same, fill_scalar_keys.
Qed.

Lemma fill_zero_same (df : Frame) (col : string) :
  team_keyed col (fill_zero df col) = fill_scalar (Some 0) (team_keyed col df).
Proof.
  unfold fill_zero. apply team_keyed_assign_same, fill_scalar_keys.
Qed.

Lemma fill_means_same (df : Frame) (col : string) :
  team_keyed col (fill_means df col)
  = fill_column_mean (fill_team_mean (team_keyed col df)).
Proof.
  unfold fill_means.
  rewrite team_keyed_assign_same by apply fill_scalar_keys.
  f_equal. apply team_keyed_assign_same, fill_team_mean_keys.
Qed.

Lemma map_snd_length (name : string) (df : Frame)
  (rows : list (string * num)) :
  map fst rows = map fst (team_keyed name df) ->
  List.length (map snd rows) = List.length df.
Proof.
  intro H. rewrite length_map.
  rewrite <- (length_map fst rows), H, length_map. apply team_keyed_length.
Qed.

Lemma fill_team_only_other (df : Frame) (col name : string) :
  name <> col -> team_keyed name (fill_team_only df col) = team_keyed name df.
Proof.
  intro Hne. unfold fill_team_only.
  apply team_keyed_assign_other; [exact Hne|].
  apply (map_snd_length col), fill_team_mean_keys.
Qed.

Lemma fill_column_only_other (df : Frame) (col name : string) :
  name <> col -> team_keyed name (fill_column_only df col) = team_keyed name df.
Proof.
  intro Hne. unfold fill_column_only.
  apply team_keyed_assign_other; [exact Hne|].
  apply (map_snd_length col), fill_scalar_keys.
Qed.

Lemma fill_zero_other (df : Frame) (col name : string) :
  name <> col -> team_keyed name (fill_zero df col) = team_keyed name df.
Proof.
  intro Hne. unfold fill_zero.
  apply team_keyed_assign_other; [exact Hne|].
  apply (map_snd_length col), fill_scalar_keys.
Qed.

Lemma fill_means_other (df : Frame) (col name : string) :
  name <> col -> team_keyed name (fill_means df col) = team_keyed name df.
Proof.
  intro Hne. unfold fill_means.
  rewrite team_keyed_assign_other.
  - apply (fill_team_only_other df col name Hne).
  - exact Hne.
  - apply (map_snd_length col).
    unfold fill_column_mean. apply fill_scalar_keys.
Qed.

Lemma ewm_cols_NoDup : NoDup ewm_cols.
Proof.
  unfold ewm_cols. simpl.
  repeat constructor; simpl; intuition discriminate.
Qed.

Lemma three_fills_pointwise (rows : list (string * num)) :
  fill_scalar (Some 0) (fill_column_mean (fill_team_mean rows))
  = map (fun kv =>
           (fst kv,
            three_tier (snd kv) (group_mean String.eqb rows (fst kv))
              (mean (map snd (fill_team_mean rows)))))
        rows.
Proof.
  unfold fill_column_mean.
  generalize (mean (map snd (fill_team_mean rows))) as g. intro g.
  rewrite fill_team_mean_pointwise.
  unfold fill_scalar. rewrite !map_map.
  apply map_ext. intros [k v]. simpl.
  destruct v as [v|]; simpl; [reflexivity|].
  destruct (group_mean String.eqb rows k); simpl; [reflexivity|].
  destruct g; reflexivity.
Qed.

(** C4: every derived column comes out of the fill with, in each row,
    the cell it had if it was present, else the mean of the column over
    the row's team, else the mean of the whole column as the team fill
    left it, else 0.0; the per-column loop of [app/predictor.py] and the
    three separate loops of [serieA.py] give the same column. *)
Theorem C4_three_tier_fill_in_order (df : Frame) (name : string) :
  In name ewm_cols ->
  team_keyed name (fill_missing df)
  = map (fun kv =>
           (fst kv,
            three_tier (snd kv)
              (group_mean String.eqb (team_keyed name df) (fst kv))
              (mean (map snd (fill_team_mean (team_keyed name df))))))
        (team_keyed name df) /\
  team_keyed name (fill_missing_script df) = team_keyed name (fill_missing df).
Proof.
  intro Hin.
  assert (E : team_keyed name (fill_missing df)
              = fill_scalar (Some 0)
                  (fill_column_mean (fill_team_mean (team_keyed name df)))).
  { unfold fill_missing.
    rewrite (fold_step_same fill_zero (fill_scalar (Some 0))
               fill_zero_same fill_zero_other)
      by (exact ewm_cols_NoDup || exact Hin).
    f_equal.
    apply (fold_step_same fill_means
             (fun rows => fill_column_mean (fill_team_mean rows))
             fill_means_same fill_means_other);
      [exact ewm_cols_NoDup|exact Hin]. }
  split.
  - rewrite E. apply three_fills_pointwise.
  - rewrite E. unfold fill_missing_script.
    rewrite (fold_step_same fill_zero (fill_scalar (Some 0))
               fill_zero_same fill_zero_other)
      by (exact ewm_cols_NoDup || exact Hin).
    f_equal.
    rewrite (fold_step_same fill_column_only fill_column_mean
               fill_column_only_same fill_column_only_other)
      by (exact ewm_cols_NoDup || exact Hin).
    f_equal.
    apply (fold_step_same fill_team_only fill_team_mean
             fill_team_only_same fill_team_only_other);
      [exact ewm_cols_NoDup|exact Hin].
Qed.

Lemma C4_three_tier_fill_in_order_witness :
  In "gf_ewm_team"%string ewm_cols /\
  team_keyed "gf_ewm_team" (fill_missing gappy_frame)
  = map (fun kv =>
           (fst kv,
            three_tier (snd kv)
              (group_mean String.eqb (team_keyed "gf_ewm_team" gappy_frame) (fst kv))
              (mean (map snd (fill_team_mean
                                (team_keyed "gf_ewm_team" gappy_frame))))))
        (team_keyed "gf_ewm_team" gappy_frame) /\
  col_eqb (column "gf_ewm_team" (fill_missing gappy_frame))
          [Some 4; Some 4; Some 4; Some (12 # 5); Some 0; Some 0] = true /\
  col_eqb (column "ga_ewm_matchup" (fill_missing gappy_frame))
          [Some 0; Some 0; Some 0; Some 0; Some 0; Some 0] = true.
Proof.
  assert (Hin : In "gf_ewm_team"%string ewm_cols) by (simpl; now left).
  split; [exact Hin|].
  split; [exact (proj1 (C4_three_tier_fill_in_order gappy_frame "gf_ewm_team" Hin))|].
  split; vm_compute; reflexivity.
Defined.

(** ** One group: the program's column is the recurrence of the design
       document *)

Lemma spec_recurrence_snoc (a e x : Q) (xs : list Q) :
  spec_recurrence a e (xs ++ [x]) = a * x + (1 - a) * spec_recurrence a e xs.
Proof.
  revert e. induction xs as [|y xs IH]; intro e; simpl; [reflexivity|apply IH].
Qed.

Lemma spec_ewm_snoc (a x : Q) (pre : list Q) :
  spec_ewm a (pre ++ [x])
  = match spec_ewm a pre with
    | None => Some x
    | Some e => Some (a * x + (1 - a) * e)
    end.
Proof.
  destruct pre as [|x0 rest]; simpl; [reflexivity|].
  now rewrite spec_recurrence_snoc.
Qed.

Lemma ewm_scan_cons (a : Q) (minp : nat) (st : ewm_state) (cur : num)
  (rest : list num) :
  ewm_scan a minp st (cur :: rest)
  = (if (minp <=? nobs (ewm_step a st cur))%nat
     then weighted (ewm_step a st cur) else NaN)
      :: ewm_scan a minp (ewm_step a st cur) rest.
Proof. reflexivity. Qed.

Lemma ewm_step_agrees (a x : Q) (st : ewm_state) (pre : list Q) :
  ewm_agrees a st pre -> ewm_agrees a (ewm_step a st (Some x)) (pre ++ [x]).
Proof.
  intros (Hw & Hold & Hn). unfold ewm_agrees, ewm_step.
  rewrite spec_ewm_snoc.
  destruct (weighted st) as [w|] eqn:Ew; destruct (spec_ewm a pre) as [e|] eqn:Ee;
    simpl in Hw; try discriminate.
  - apply Qeq_bool_iff in Hw. simpl. rewrite Hold. repeat split.
    + apply Qeq_bool_iff.
      destruct (Qeq_bool w x) eqn:Ewx.
      * apply Qeq_bool_iff in Ewx. rewrite <- Hw. rewrite <- Ewx. ring.
      * rewrite <- Hw. field. intro H. ring_simplify in H. discriminate H.
    + intros _. rewrite Nat.add_1_r. reflexivity.
  - simpl. repeat split.
    + apply Qeq_bool_iff. reflexivity.
    + exact Hold.
    + intros _. rewrite Nat.add_1_r. reflexivity.
Qed.

Section SingleGroup.
Context {K : Type} (keq : K -> K -> bool) (k : K).
Hypothesis keq_refl : keq k k = true.
Variable a : Q.

Lemma ewm_scan_single_group (xs pre : list Q) (before : list (K * num))
    (st : ewm_state) :
    ewm_agrees a (ewm_step a st (prev_in_group keq k before)) pre ->
    col_eqb
      (ewm_scan a 1 st (shift_from keq before (map (fun x => (k, Some x)) xs)))
      (map (fun i => spec_ewm a (pre ++ firstn i xs)) (seq 0 (List.length xs)))
    = true.
  Proof.
    revert pre before st.
    induction xs as [|x xs IH]; intros pre before st Hag; [reflexivity|].
    change (shift_from keq before (map (fun x => (k, Some x)) (x :: xs)))
      with (prev_in_group keq k before
              :: shift_from keq ((k, Some x) :: before)
                   (map (fun x => (k, Some x)) xs)).
    rewrite ewm_scan_cons.
    change (seq 0 (List.length (x :: xs)))
      with (0%nat :: seq 1 (List.length xs)).
    rewrite map_cons. cbn [col_eqb].
    apply andb_true_intro. split.
    - cbn [firstn]. rewrite app_nil_r. destruct Hag as (Hw & _ & Hn).
      destruct (weighted _) as [w|] eqn:Ew.
      + rewrite Hn by discriminate. exact Hw.
      + destruct (1 <=? _)%nat; exact Hw.
    - rewrite <- seq_shift, map_map.
      rewrite (map_ext
                 (fun i => spec_ewm a (pre ++ firstn (S i) (x :: xs)))
                 (fun i => spec_ewm a ((pre ++ [x]) ++ firstn i xs)))
        by (intro i; simpl; now rewrite <- app_assoc).
      apply IH. simpl. rewrite keq_refl. now apply ewm_step_agrees.
  Qed.

Lemma spec_form_single_group (xs : list Q) (i : nat) :
    (i < List.length xs)%nat ->
    spec_form keq a (map (fun x => (k, x)) xs) i = spec_ewm a (firstn i xs).
  Proof.
    intro Hi. unfold spec_form.
    rewrite nth_error_map.
    destruct (nth_error xs i) as [x|] eqn:E.
    - simpl. f_equal. rewrite firstn_map.
      generalize (firstn i xs) as l. intro l.
      induction l as [|y l IHl]; simpl; [reflexivity|].
      rewrite keq_refl. simpl. now rewrite IHl.
    - apply nth_error_None in E. lia.
  Qed.

  (** On a table of one group the program's shifted average is, row by
      row, the recurrence over the strictly prior values. *)
Lemma ewm_single_group_agrees (xs : list Q) :
    col_eqb
      (ewm_mean a 1 (groupby_shift keq (map (fun x => (k, Some x)) xs)))
      (spec_form_column keq a (map (fun x => (k, x)) xs))
    = true.
  Proof.
    unfold ewm_mean, groupby_shift, spec_form_column.
    rewrite length_map.
    erewrite (map_ext_in (spec_form keq a _)).
    - apply (ewm_scan_single_group xs []).
      simpl. repeat split; try reflexivity. intro H. now contradiction H.
    - intros i Hi. apply in_seq in Hi. simpl.
      apply spec_form_single_group. lia.
  Qed.
End SingleGroup.

(** ** The derived form columns *)

(** C1, at [two_team_csv]: the frame is in (team, date) order and its
    goals-for series is [two_team_gf].  The program's team-level column
    is NaN, 4, 4, 16/7: the rows of team B receive the running average
    of team A (4, then 4 mixed with B's own 0), where the averaging
    that starts afresh with each team gives NaN, 4, NaN, 0.  The
    matchup-level column is NaN, 4, 4, 16/19 against NaN, 4, NaN, 0.
    After the fill the stored gm_form of B's two rows is 4 and 16/7. *)
Theorem C1_form_average_runs_across_groups :
  keyed team gf (derive_team two_team_csv)
  = map (fun kv => (fst kv, Some (snd kv))) two_team_gf /\
  col_eqb (column "gf_ewm_team" (derive_team two_team_csv))
          [NaN; Some 4; Some 4; Some (16 # 7)] = true /\
  col_eqb (spec_form_column String.eqb (alpha_of_span 5) two_team_gf)
          [NaN; Some 4; NaN; Some 0] = true /\
  keyed (fun r => (team r, opponent r)) gf
        (sort_values (on_row by_team_opponent_date) (derive_team two_team_csv))
  = map (fun kv => (fst kv, Some (snd kv))) two_team_matchup_gf /\
  col_eqb (column "gf_ewm_matchup" (derive_matchup (derive_team two_team_csv)))
          [NaN; Some 4; Some 4; Some (16 # 19)] = true /\
  col_eqb (spec_form_column string_pair_eqb (6 # 10) two_team_matchup_gf)
          [NaN; Some 4; NaN; Some 0] = true /\
  map (fun r : Row => (team r, date r)) (_prepare_dataset two_team_csv)
  = [("A", 1); ("A", 2); ("B", 1); ("B", 2)]%string%Z /\
  col_eqb (map (fun r : Row => gm_form r) (_prepare_dataset two_team_csv))
          [Some 4; Some 4; Some 4; Some (16 # 7)] = true.
Proof.
  repeat split; vm_compute; reflexivity.
Qed.

(** ** The artifacts and [predict] *)

Lemma predict_never_model_not_loaded
  (self : PredictorService) (t o v f opf : string) :
  predict self t o v f opf <> Raise ModelNotLoadedError.
Proof.
  unfold predict.
  destruct (build_feature_row_ok self t o v f opf) as [row E]. rewrite E.
  simpl.
  destruct (preprocessor self); simpl; [|discriminate].
  destruct (model_gf self); simpl; [|discriminate].
  destruct (model_ga self); simpl; discriminate.
Qed.

Lemma predict_unloaded (self : PredictorService) (t o v f opf : string) :
  preprocessor self = None \/ model_gf self = None \/ model_ga self = None ->
  predict self t o v f opf = Raise AttributeError.
Proof.
  intro H. unfold predict.
  destruct (build_feature_row_ok self t o v f opf) as [row E]. rewrite E.
  simpl.
  destruct (preprocessor self); simpl; [|reflexivity].
  destruct (model_gf self); simpl; [|reflexivity].
  destruct (model_ga self); simpl; [|reflexivity].
  destruct H as [H|[H|H]]; discriminate.
Qed.

Lemma init_loads_all (fs : Files) (s : PredictorService) :
  __init__ fs = Ok s ->
  exists pre mgf mga,
    preprocessor s = Some pre /\ model_gf s = Some mgf /\ model_ga s = Some mga /\
    preprocessor_pkl fs = Some pre /\ model_gf_pkl fs = Some mgf /\
    model_ga_pkl fs = Some mga.
Proof.
  unfold __init__.
  destruct (matches_csv fs); simpl; [|discriminate].
  destruct (preprocessor_pkl fs) as [pre|]; simpl; [|discriminate].
  destruct (model_gf_pkl fs) as [mgf|]; simpl; [|discriminate].
  destruct (model_ga_pkl fs) as [mga|]; simpl; [|discriminate].
  intro H. injection H as <-. simpl.
  exists pre, mgf, mga. repeat split; reflexivity.
Qed.

(** C3 as amended: no path of [predict] raises ModelNotLoadedError.
    [__init__] loads the three artifacts before a service exists and
    fails with the loader's error when one of them is missing; on a
    constructed service [predict] returns a prediction; on a service
    object with an empty artifact slot [predict] fails with
    AttributeError. *)
Theorem C3_predict_has_no_model_not_loaded_path :
  (forall (self : PredictorService) (t o v f opf : string),
      predict self t o v f opf <> Raise ModelNotLoadedError) /\
  (forall (self : PredictorService) (t o v f opf : string),
      preprocessor self = None \/ model_gf self = None \/ model_ga self = None ->
      predict self t o v f opf = Raise AttributeError) /\
  (forall (fs : Files),
      preprocessor_pkl fs = None \/ model_gf_pkl fs = None
      \/ model_ga_pkl fs = None ->
      __init__ fs = Raise FileNotFoundError) /\
  (forall (fs : Files) (s : PredictorService),
      __init__ fs = Ok s ->
      (exists pre mgf mga,
          preprocessor s = Some pre /\ model_gf s = Some mgf
          /\ model_ga s = Some mga) /\
      forall t o v f opf : string, exists p, predict s t o v f opf = Ok p).
Proof.
  split; [exact predict_never_model_not_loaded|].
  split; [exact predict_unloaded|].
  split.
  - intros fs H. unfold __init__.
    destruct (matches_csv fs); simpl; [|reflexivity].
    destruct (preprocessor_pkl fs); simpl; [|reflexivity].
    destruct (model_gf_pkl fs); simpl; [|reflexivity].
    destruct (model_ga_pkl fs); simpl; [|reflexivity].
    destruct H as [H|[H|H]]; discriminate.
  - intros fs s H.
    destruct (init_loads_all fs s H) as (pre & mgf & mga & E1 & E2 & E3 & _).
    split; [exists pre, mgf, mga; now repeat split|].
    intros t o v f opf.
    destruct s as [d p1 p2 p3 dflt]. simpl in E1, E2, E3. subst.
    destruct (predict_loaded d pre mgf mga dflt t o v f opf) as (row & _ & E).
    eexists. exact E.
Qed.

Lemma C3_predict_has_no_model_not_loaded_path_witness :
  predict unloaded_service "Inter" "Milan" "Home" "4-3-3" "3-5-2"
  = Raise AttributeError /\
  (exists s, __init__ sample_files = Ok s /\
             exists p, predict s "A" "B" "Home" "4-3-3" "3-5-2" = Ok p) /\
  __init__ (mkFiles (Some two_team_csv) (Some (fun _ => [])) None
              (Some (fun _ => 1)))
  = Raise FileNotFoundError.
Proof.
  destruct C3_predict_has_no_model_not_loaded_path as (_ & Hun & Hmiss & Hinit).
  split; [apply Hun; left; reflexivity|].
  split.
  - destruct (__init__ sample_files) as [s|e] eqn:E; [|discriminate E].
    exists s. split; [reflexivity|].
    exact (proj2 (Hinit sample_files s E) _ _ _ _ _).
  - apply Hmiss. right. left. reflexivity.
Defined.

(** C3 as stated fails: on a service whose artifacts are not loaded,
    [predict] does not fail with ModelNotLoadedError. *)
Lemma C3_unloaded_predict_raises_attribute_error :
  ~ (forall (self : PredictorService) (t o v f opf : string),
        preprocessor self = None \/ model_gf self = None \/ model_ga self = None ->
        predict self t o v f opf = Raise ModelNotLoadedError).
Proof.
  intro H.
  specialize (H unloaded_service "Inter" "Milan" "Home" "4-3-3" "3-5-2"
                (or_introl eq_refl))%string.
  vm_compute in H. discriminate H.
Qed.

(* ================================================================== *)
(** * Further properties of the service                                *)
(* ================================================================== *)

(** ** [list_teams] *)

(** X1: [list_teams] is strictly increasing in the lexicographic order, so
    sorted and free of duplicates, and holds exactly the names that
    occur in the team column. *)
Theorem list_teams_sorted_distinct (self : PredictorService) :
  StronglySorted (fun a b => String.ltb a b = true) (list_teams self) /\
  NoDup (list_teams self) /\
  (forall s : string,
      In s (list_teams self) <-> exists r : Row, In r (df self) /\ team r = s).
Proof.
  assert (Hnd : NoDup (list_teams self)).
  { unfold list_teams.
    eapply Permutation_NoDup; [apply sort_values_perm|]. apply NoDup_nodup. }
  split; [|split; [exact Hnd|]].
  - apply sorted_leb_NoDup_ltb; [|exact Hnd].
    unfold list_teams.
    apply sort_values_sorted; [apply String.leb_total|apply string_leb_trans].
  - intro s. unfold list_teams.
    rewrite sort_values_In, nodup_In, in_map_iff.
    split; intros (r & H1 & H2); exists r; auto.
Qed.

(** ** Form resolver and feature row *)

Lemma matchup_form_keys (self : PredictorService) (t o : string) :
  exists a b c d,
    _get_matchup_form self t o
    = Ok [("gf_vs_opp", a); ("ga_vs_opp", b); ("xg_vs_opp", c);
          ("xga_vs_opp", d)]%string.
Proof.
  unfold _get_matchup_form.
  destruct (iloc_last _).
  - simpl. do 4 eexists; reflexivity.
  - destruct (team_form_keys self t) as (a & b & c & d & E).
    rewrite E. do 4 eexists; reflexivity.
Qed.

(** X2: When the table has a row of team [T] against opponent [O],
    [_get_matchup_form] returns the four matchup cells of one such row
    whose date no other such row exceeds. *)
Theorem matchup_form_latest_shared_row
  (self : PredictorService) (T O : string) :
  (exists r : Row, In r (df self) /\ team r = T /\ opponent r = O) ->
  exists latest : Row,
    In latest (df self) /\ team latest = T /\ opponent latest = O /\
    (forall r : Row, In r (df self) -> team r = T -> opponent r = O ->
                     (date r <= date latest)%Z) /\
    _get_matchup_form self T O
    = Ok [("gf_vs_opp", gf_vs_opp latest); ("ga_vs_opp", ga_vs_opp latest);
          ("xg_vs_opp", xg_vs_opp latest);
          ("xga_vs_opp", xga_vs_opp latest)]%string.
Proof.
  intros (r0 & Hr0 & Ht0 & Ho0).
  unfold _get_matchup_form.
  pose proof (latest_row_spec
                (filter (fun r : Row =>
                           String.eqb (team r) T && String.eqb (opponent r) O)
                        (df self))) as H.
  destruct (iloc_last _) as [latest|].
  - destruct H as [Hin Hmax].
    apply filter_In in Hin. destruct Hin as [Hin Heq].
    apply andb_true_iff in Heq. destruct Heq as [H1 H2].
    apply String.eqb_eq in H1. apply String.eqb_eq in H2.
    exists latest. repeat split; try assumption.
    intros r Hr Ht Ho. apply Hmax. apply filter_In. split; [exact Hr|].
    apply andb_true_iff. split; now apply String.eqb_eq.
  - exfalso.
    assert (Hin : In r0 (filter (fun r : Row =>
                                   String.eqb (team r) T
                                   && String.eqb (opponent r) O) (df self))).
    { apply filter_In. split; [exact Hr0|].
      apply andb_true_iff. split; now apply String.eqb_eq. }
    rewrite H in Hin. contradiction.
Qed.

Lemma matchup_form_latest_shared_row_witness :
  (exists r : Row, In r (df sample_service) /\ team r = "Inter"%string
                   /\ opponent r = "Milan"%string) /\
  _get_matchup_form sample_service "Inter" "Milan"
  = Ok [("gf_vs_opp", Some 1); ("ga_vs_opp", Some (1 + 1));
        ("xg_vs_opp", Some (1 + 2)); ("xga_vs_opp", Some (1 + 3))]%string /\
  exists latest : Row,
    In latest (df sample_service) /\ date latest = 1%Z.
Proof.
  assert (H : exists r : Row, In r (df sample_service) /\ team r = "Inter"%string
                              /\ opponent r = "Milan"%string).
  { exists (sample_row 1 "Inter" "Milan" 2 1 1 1).
    split; [right; now left|split; reflexivity]. }
  split; [exact H|]. split; [reflexivity|].
  destruct (matchup_form_latest_shared_row sample_service "Inter" "Milan" H)
    as (latest & Hin & Ht & Ho & _).
  exists latest. split; [exact Hin|].
  simpl in Hin. destruct Hin as [<-|[<-|[<-|[<-|[]]]]]; try discriminate.
  reflexivity.
Defined.

Lemma feature_row_explicit (self : PredictorService) (t o v f opf : string) :
  exists gm ga xg xga gfo gao xgo xgao : num,
    _get_team_form self t
    = [("gm_form", gm); ("ga_form", ga); ("xg_form", xg);
       ("xga_form", xga)]%string /\
    _get_matchup_form self t o
    = Ok [("gf_vs_opp", gfo); ("ga_vs_opp", gao); ("xg_vs_opp", xgo);
          ("xga_vs_opp", xgao)]%string /\
    _build_feature_row self t o v f opf
    = Ok [("venue", VStr v); ("team", VStr t); ("opponent", VStr o);
          ("formation", VStr f); ("opp formation", VStr opf);
          ("gm_form", VNum gm); ("ga_form", VNum ga); ("xg_form", VNum xg);
          ("xga_form", VNum xga); ("gf_vs_opp", VNum gfo);
          ("ga_vs_opp", VNum gao); ("xg_vs_opp", VNum xgo);
          ("xga_vs_opp", VNum xgao)]%string.
Proof.
  destruct (team_form_keys self t) as (gm & ga & xg & xga & E1).
  destruct (matchup_form_keys self t o) as (gfo & gao & xgo & xgao & E2).
  exists gm, ga, xg, xga, gfo, gao, xgo, xgao.
  split; [exact E1|]. split; [exact E2|].
  unfold _build_feature_row. rewrite E1, E2. reflexivity.
Qed.

(** X3: [_build_feature_row] never raises: its row has the thirteen feature
    columns in the order of [FEATURE_COLS], the five labels as they were
    passed, then the four values of [_get_team_form] and the four values
    of [_get_matchup_form]. *)
Theorem build_feature_row_schema
  (self : PredictorService) (t o v f opf : string) :
  exists gm ga xg xga gfo gao xgo xgao : num,
    _get_team_form self t
    = [("gm_form", gm); ("ga_form", ga); ("xg_form", xg);
       ("xga_form", xga)]%string /\
    _get_matchup_form self t o
    = Ok [("gf_vs_opp", gfo); ("ga_vs_opp", gao); ("xg_vs_opp", xgo);
          ("xga_vs_opp", xgao)]%string /\
    _build_feature_row self t o v f opf
    = Ok [("venue", VStr v); ("team", VStr t); ("opponent", VStr o);
          ("formation", VStr f); ("opp formation", VStr opf);
          ("gm_form", VNum gm); ("ga_form", VNum ga); ("xg_form", VNum xg);
          ("xga_form", VNum xga); ("gf_vs_opp", VNum gfo);
          ("ga_vs_opp", VNum gao); ("xg_vs_opp", VNum xgo);
          ("xga_vs_opp", VNum xgao)]%string /\
    (forall row, _build_feature_row self t o v f opf = Ok row ->
                 map fst row = FEATURE_COLS).
Proof.
  destruct (feature_row_explicit self t o v f opf)
    as (gm & ga & xg & xga & gfo & gao & xgo & xgao & E1 & E2 & E3).
  exists gm, ga, xg, xga, gfo, gao, xgo, xgao.
  split; [exact E1|]. split; [exact E2|]. split; [exact E3|].
  intros row Hrow. rewrite E3 in Hrow. injection Hrow as <-. reflexivity.
Qed.

(** X4: For a team without a row in the table the eight numeric features
    are default forms, and the four matchup features are the defaults
    of the team-form columns (gm_form, ga_form, xg_form, xga_form), not
    those of the matchup columns. *)
Theorem unknown_team_features_are_team_defaults
  (self : PredictorService) (T o v f opf : string) :
  (forall r : Row, In r (df self) -> team r <> T) ->
  let d := fun col => dict_get (default_forms self) col (Some 0) in
  _build_feature_row self T o v f opf
  = Ok [("venue", VStr v); ("team", VStr T); ("opponent", VStr o);
        ("formation", VStr f); ("opp formation", VStr opf);
        ("gm_form", VNum (d "gm_form")); ("ga_form", VNum (d "ga_form"));
        ("xg_form", VNum (d "xg_form")); ("xga_form", VNum (d "xga_form"));
        ("gf_vs_opp", VNum (d "gm_form")); ("ga_vs_opp", VNum (d "ga_form"));
        ("xg_vs_opp", VNum (d "xg_form"));
        ("xga_vs_opp", VNum (d "xga_form"))]%string.
Proof.
  intros Hnone d.
  assert (E : filter (fun r : Row => String.eqb (team r) T) (df self) = []).
  { apply filter_nil_iff. intros x Hx. apply String.eqb_neq. now apply Hnone. }
  assert (E' : filter (fun r : Row =>
                         String.eqb (team r) T && String.eqb (opponent r) o)
                      (df self) = []).
  { apply filter_nil_iff. intros x Hx.
    assert (Hx' : String.eqb (team x) T = false)
      by (apply String.eqb_neq; now apply Hnone).
    now rewrite Hx'. }
  unfold _build_feature_row, _get_matchup_form, _get_team_form.
  rewrite E, E'. reflexivity.
Qed.

Lemma unknown_team_features_are_team_defaults_witness :
  (forall r : Row, In r (df sample_service) -> team r <> "Napoli"%string) /\
  exists row,
    _build_feature_row sample_service "Napoli" "Inter" "Home" "4-3-3" "3-5-2"
    = Ok row /\
    dict_lookup row "gf_vs_opp"
    = Some (VNum (dict_get (default_forms sample_service) "gm_form" (Some 0))) /\
    num_eqb (dict_get (default_forms sample_service) "gm_form" (Some 0))
            (Some 3) = true /\
    num_eqb (dict_get (default_forms sample_service) "gf_vs_opp" (Some 0))
            (Some (7 # 2)) = true.
Proof.
  assert (Hno : forall r : Row, In r (df sample_service) -> team r <> "Napoli"%string).
  { simpl. intros r [<-|[<-|[<-|[<-|[]]]]]; discriminate. }
  split; [exact Hno|].
  eexists. split.
  - exact (unknown_team_features_are_team_defaults sample_service
             "Napoli" "Inter" "Home" "4-3-3" "3-5-2" Hno).
  - split; [reflexivity|]. split; vm_compute; reflexivity.
Defined.

(** ** [head_to_head] and [recent_results] *)

Lemma num_gt_lt_exclusive (a b : num) :
  num_gt a b = true -> num_lt a b = false.
Proof.
  unfold num_lt, num_gt. destruct a as [x|], b as [y|]; try discriminate;
    try reflexivity.
  intro H. apply negb_true_iff in H.
  apply negb_false_iff. apply Qle_bool_iff.
  destruct (Qlt_le_dec y x) as [Hlt|Hle]; [now apply Qlt_le_weak|].
  apply Qle_bool_iff in Hle. congruence.
Qed.

Lemma h2h_record_other_side (t o : string) (row : Row) :
  t <> o -> team row = t \/ team row = o ->
  h2h_record o row = other_side (h2h_record t row).
Proof.
  intros Hne Hteam. unfold h2h_record, other_side. simpl.
  f_equal.
  assert (Hx : num_gt (gf row) (ga row) = true -> num_lt (gf row) (ga row) = false)
    by apply num_gt_lt_exclusive.
  destruct Hteam as [E|E]; rewrite E.
  - rewrite String.eqb_refl.
    assert (Eo : String.eqb t o = false) by now apply String.eqb_neq.
    rewrite Eo.
    destruct (num_gt (gf row) (ga row)) eqn:G.
    + rewrite (Hx eq_refl). reflexivity.
    + destruct (num_lt (gf row) (ga row)); reflexivity.
  - rewrite String.eqb_refl.
    assert (Eo : String.eqb o t = false)
      by (apply String.eqb_neq; congruence).
    rewrite Eo.
    destruct (num_gt (gf row) (ga row)) eqn:G.
    + rewrite (Hx eq_refl). reflexivity.
    + destruct (num_lt (gf row) (ga row)); reflexivity.
Qed.

Lemma h2h_rows_swap (self : PredictorService) (t o : string) (limit : Z) :
  h2h_rows self o t limit = h2h_rows self t o limit.
Proof.
  unfold h2h_rows. do 2 f_equal.
  apply filter_ext. intro r. apply orb_comm.
Qed.

Lemma h2h_rows_teams (self : PredictorService) (t o : string) (limit : Z)
  (row : Row) :
  In row (h2h_rows self t o limit) ->
  In row (df self) /\
  ((team row = t /\ opponent row = o) \/ (team row = o /\ opponent row = t)).
Proof.
  intro H. unfold h2h_rows in H.
  apply head_In in H. apply sort_values_desc_In in H.
  apply filter_In in H. destruct H as [Hin Hmask].
  split; [exact Hin|].
  apply orb_true_iff in Hmask.
  destruct Hmask as [H|H]; apply andb_true_iff in H; destruct H as [H1 H2];
    apply String.eqb_eq in H1; apply String.eqb_eq in H2; [left|right];
    now split.
Qed.

(** X5: Swapping the two teams of a [head_to_head] query gives the same
    records in the same order, each with its result turned around: "W"
    and "L" change places, "D" stays. *)
Theorem head_to_head_swapped_query
  (self : PredictorService) (t o : string) (limit : Z) :
  t <> o ->
  head_to_head self o t limit = map other_side (head_to_head self t o limit).
Proof.
  intro Hne. unfold head_to_head.
  rewrite h2h_rows_swap, map_map.
  apply map_ext_in. intros row Hrow.
  apply h2h_record_other_side; [exact Hne|].
  apply h2h_rows_teams in Hrow. destruct Hrow as [_ [[H _]|[H _]]]; auto.
Qed.

Lemma head_to_head_swapped_query_witness :
  "Inter"%string <> "Milan"%string /\
  head_to_head sample_service "Milan" "Inter" 5
  = map other_side (head_to_head sample_service "Inter" "Milan" 5) /\
  map h_result (head_to_head sample_service "Inter" "Milan" 5)
  = ["W"; "W"]%string /\
  map h_result (head_to_head sample_service "Milan" "Inter" 5)
  = ["L"; "L"]%string.
Proof.
  assert (H : "Inter"%string <> "Milan"%string) by discriminate.
  split; [exact H|].
  split; [exact (head_to_head_swapped_query sample_service "Inter" "Milan" 5 H)|].
  split; reflexivity.
Defined.

Lemma StronglySorted_map {A B : Type} (R : B -> B -> Prop) (f : A -> B)
  (l : list A) :
  StronglySorted (fun a b => R (f a) (f b)) l -> StronglySorted R (map f l).
Proof.
  induction 1 as [|x l Hs IH Hall]; simpl; constructor; [exact IH|].
  apply Forall_forall. intros y Hy. apply in_map_iff in Hy.
  destruct Hy as (z & <- & Hz). rewrite Forall_forall in Hall. now apply Hall.
Qed.

(** X6: For a limit [n >= 0], [head_to_head] returns at most [n] records,
    no more than there are rows between the two teams, with dates that
    never increase; with no row between the two teams it returns the
    empty list; with room for all of them ([n] at least their number)
    it returns one record per such row. *)
Theorem head_to_head_bounded_and_ordered
  (self : PredictorService) (t o : string) (n : Z) :
  (0 <= n)%Z ->
  List.length (head_to_head self t o n)
  = Nat.min (Z.to_nat n) (List.length (shared_rows self t o)) /\
  StronglySorted (fun a b : H2HRecord => (h_date b <= h_date a)%Z)
    (head_to_head self t o n) /\
  (shared_rows self t o = [] -> head_to_head self t o n = []) /\
  ((Z.of_nat (List.length (shared_rows self t o)) <= n)%Z ->
   Permutation (map (h2h_record t) (shared_rows self t o))
               (head_to_head self t o n)).
Proof.
  intro Hn.
  assert (Hhead : forall l : list Row, head n l = firstn (Z.to_nat n) l).
  { intro l. unfold head.
    destruct (0 <=? n)%Z eqn:E; [reflexivity|apply Z.leb_gt in E; lia]. }
  unfold head_to_head, h2h_rows. fold (shared_rows self t o).
  rewrite Hhead.
  split; [|split; [|split]].
  - rewrite length_map, length_firstn.
    rewrite <- (Permutation_length (sort_values_desc_perm row_by_date _)).
    reflexivity.
  - apply StronglySorted_map. simpl.
    apply StronglySorted_firstn. apply sort_values_desc_sorted.
  - intros ->. unfold sort_values_desc. simpl. now rewrite firstn_nil.
  - intro Hlen. rewrite firstn_all2.
    + apply Permutation_map, sort_values_desc_perm.
    + rewrite <- (Permutation_length (sort_values_desc_perm row_by_date _)).
      lia.
Qed.

Lemma head_to_head_bounded_and_ordered_witness :
  (0 <= 1)%Z /\
  List.length (head_to_head sample_service "Inter" "Milan" 1) = 1%nat /\
  List.length (shared_rows sample_service "Inter" "Milan") = 2%nat /\
  head_to_head sample_service "Inter" "Napoli" 1 = [].
Proof.
  assert (H : (0 <= 1)%Z) by lia.
  destruct (head_to_head_bounded_and_ordered sample_service "Inter" "Milan" 1 H)
    as (Hlen & _).
  destruct (head_to_head_bounded_and_ordered sample_service "Inter" "Napoli" 1 H)
    as (_ & _ & Hempty & _).
  split; [exact H|]. split; [rewrite Hlen; reflexivity|].
  split; [reflexivity|]. apply Hempty. reflexivity.
Defined.

Lemma StronglySorted_app_cross {A : Type} (R : A -> A -> Prop) (l1 l2 : list A) :
  StronglySorted R (l1 ++ l2) ->
  forall a b, In a l1 -> In b l2 -> R a b.
Proof.
  induction l1 as [|x l1 IH]; simpl; intros Hs a b Ha Hb; [contradiction|].
  inversion Hs as [|? ? Hs' Hall]; subst.
  destruct Ha as [<-|Ha].
  - rewrite Forall_forall in Hall. apply Hall, in_or_app. now right.
  - now apply (IH Hs').
Qed.

(** X7: For a limit [n >= 0], [recent_results] has as many entries as the
    team has rows, up to [n], and they are the most recent ones: a row
    of the team that is left out is dated no later than any row that is
    kept. *)
Theorem recent_results_are_the_latest
  (self : PredictorService) (T : string) (n : Z) :
  (0 <= n)%Z ->
  List.length (recent_results self T n)
  = Nat.min (Z.to_nat n) (List.length (team_rows self T)) /\
  recent_results self T n
  = map (fun r : Row => classify (gf r) (ga r)) (recent_rows self T n) /\
  (forall kept left_out : Row,
      In kept (recent_rows self T n) ->
      In left_out (team_rows self T) ->
      ~ In left_out (recent_rows self T n) ->
      (date left_out <= date kept)%Z).
Proof.
  intro Hn.
  assert (Hhead : forall l : list Row, head n l = firstn (Z.to_nat n) l).
  { intro l. unfold head.
    destruct (0 <=? n)%Z eqn:E; [reflexivity|apply Z.leb_gt in E; lia]. }
  unfold recent_results, recent_rows. fold (team_rows self T).
  rewrite Hhead.
  split; [|split; [reflexivity|]].
  - rewrite length_map, length_firstn.
    rewrite <- (Permutation_length (sort_values_desc_perm row_by_date _)).
    reflexivity.
  - intros kept left_out Hk Hl Hnot.
    set (l := sort_values_desc row_by_date (team_rows self T)) in *.
    assert (Hin : In left_out l) by now apply sort_values_desc_In.
    rewrite <- (firstn_skipn (Z.to_nat n) l) in Hin.
    apply in_app_or in Hin. destruct Hin as [Hin|Hin]; [contradiction|].
    pose proof (sort_values_desc_sorted (team_rows self T)) as Hs.
    fold l in Hs. rewrite <- (firstn_skipn (Z.to_nat n) l) in Hs.
    exact (StronglySorted_app_cross _ _ _ Hs kept left_out Hk Hin).
Qed.

Lemma recent_results_are_the_latest_witness :
  (0 <= 1)%Z /\
  recent_results sample_service "Inter" 1 = ["D"]%string /\
  List.length (team_rows sample_service "Inter") = 2%nat /\
  List.length (recent_results sample_service "Inter" 1) = 1%nat.
Proof.
  assert (H : (0 <= 1)%Z) by lia.
  destruct (recent_results_are_the_latest sample_service "Inter" 1 H)
    as (Hlen & _).
  split; [exact H|]. split; [reflexivity|]. split; [reflexivity|].
  rewrite Hlen. reflexivity.
Defined.

(** X8: With a negative limit [n], [recent_results] does not return the
    empty list: it drops the [-n] oldest rows of the team and classifies
    all the others. *)
Theorem recent_results_negative_limit
  (self : PredictorService) (T : string) (n : Z) :
  (n < 0)%Z ->
  List.length (recent_results self T n)
  = (List.length (team_rows self T) - Z.to_nat (- n))%nat.
Proof.
  intro Hn. unfold recent_results, recent_rows. fold (team_rows self T).
  unfold head.
  destruct (0 <=? n)%Z eqn:E; [apply Z.leb_le in E; lia|].
  rewrite length_map, length_firstn.
  rewrite <- (Permutation_length (sort_values_desc_perm row_by_date _)).
  lia.
Qed.

Lemma recent_results_negative_limit_witness :
  (-1 < 0)%Z /\
  recent_results sample_service "Inter" (-1) = ["D"]%string /\
  List.length (recent_results sample_service "Inter" (-1)) = 1%nat.
Proof.
  assert (H : (-1 < 0)%Z) by lia.
  split; [exact H|]. split; [reflexivity|].
  rewrite (recent_results_negative_limit sample_service "Inter" (-1) H).
  reflexivity.
Defined.

(** ** [default_forms] *)

Lemma dict_lookup_tabulate {V : Type} (g : string -> V) (cols : list string)
  (k : string) (v : V) :
  dict_lookup (map (fun c => (c, g c)) cols) k = Some v ->
  In k cols /\ v = g k.
Proof.
  induction cols as [|c cols IH]; simpl; [discriminate|].
  destruct (String.eqb k c) eqn:E.
  - apply String.eqb_eq in E. subst c. intro H. injection H as <-.
    split; [now left|reflexivity].
  - intro H. destruct (IH H) as [Hin Hv]. split; [now right|exact Hv].
Qed.

Lemma dict_lookup_tabulate_in {V : Type} (g : string -> V) (cols : list string)
  (k : string) :
  In k cols -> dict_lookup (map (fun c => (c, g c)) cols) k = Some (g k).
Proof.
  induction cols as [|c cols IH]; simpl; [contradiction|].
  intro H. destruct (String.eqb k c) eqn:E.
  - apply String.eqb_eq in E. now subst c.
  - apply IH. destruct H as [->|H]; [|exact H].
    rewrite String.eqb_refl in E. discriminate.
Qed.

Lemma compute_default_forms_no_NaN (d : list Row) (k : string) (v : num) :
  dict_lookup (compute_default_forms d) k = Some v -> v <> NaN.
Proof.
  intro H. unfold compute_default_forms in H.
  apply dict_lookup_tabulate in H. destruct H as [_ ->].
  destruct (mean _); discriminate.
Qed.

(** X9: The default forms that [__init__] computes have exactly the eight
    form keys, team-form keys first; none of their values is NaN; a key
    whose column has a present cell holds the mean of the present cells;
    on an empty table every default is 0.0. *)
Theorem default_forms_defined_and_zero_on_empty (d : list Row) :
  map fst (compute_default_forms d) = (TEAM_FORM_COLS ++ MATCHUP_FORM_COLS)%list /\
  (forall (k : string) (v : num),
      dict_lookup (compute_default_forms d) k = Some v -> v <> NaN) /\
  (forall k : string,
      In k (TEAM_FORM_COLS ++ MATCHUP_FORM_COLS)%list ->
      dict_lookup (compute_default_forms d) k
      = Some (match mean (map (fun r => row_get r k NaN) d) with
              | Some m => Some m
              | None => Some 0
              end)) /\
  (d = [] ->
   forall k : string,
     In k (TEAM_FORM_COLS ++ MATCHUP_FORM_COLS)%list ->
     dict_lookup (compute_default_forms d) k = Some (Some 0)).
Proof.
  split; [|split; [|split]].
  - unfold compute_default_forms. rewrite map_map. simpl. reflexivity.
  - apply compute_default_forms_no_NaN.
  - intros k Hk. unfold compute_default_forms.
    rewrite (dict_lookup_tabulate_in
               (fun col => fillna (mean (map (fun r => row_get r col NaN) d))
                                  (Some 0))) by exact Hk.
    destruct (mean _); reflexivity.
  - intros -> k Hk. unfold compute_default_forms.
    rewrite (dict_lookup_tabulate_in
               (fun col => fillna (mean (map (fun r => row_get r col NaN) []))
                                  (Some 0))) by exact Hk.
    reflexivity.
Qed.

(** ** Invariants of [_prepare_dataset] *)

Lemma ewm_scan_length (a : Q) (minp : nat) (st : ewm_state) (vals : list num) :
  List.length (ewm_scan a minp st vals) = List.length vals.
Proof.
  revert st. induction vals as [|v vals IH]; intro st; simpl;
    [reflexivity|now rewrite IH].
Qed.

Lemma shift_from_length {K : Type} (keq : K -> K -> bool)
  (before rows : list (K * num)) :
  List.length (shift_from keq before rows) = List.length rows.
Proof.
  revert before. induction rows as [|[k v] rows IH]; intros earlier; simpl;
    [reflexivity|now rewrite IH].
Qed.

Lemma ewm_team_length (col : RawRow -> num) (df : Frame) :
  List.length (ewm_team col df) = List.length df.
Proof.
  unfold ewm_team, ewm_mean, groupby_shift, keyed.
  now rewrite ewm_scan_length, shift_from_length, length_map.
Qed.

Lemma ewm_matchup_length (col : RawRow -> num) (df : Frame) :
  List.length (ewm_matchup col df) = List.length df.
Proof.
  unfold ewm_matchup, ewm_mean, groupby_shift, keyed.
  now rewrite ewm_scan_length, shift_from_length, length_map.
Qed.

Lemma assign_rows (name : string) (df : Frame) (col : list num) :
  List.length col = List.length df ->
  map fst (assign name df col) = map fst df.
Proof.
  revert col. induction df as [|rc df IH]; intros [|v col]; simpl; intro H;
    try discriminate; [reflexivity|].
  f_equal. apply IH. now injection H.
Qed.

Lemma fold_rows {S : Type} (step : Frame -> S -> Frame) (l : list S) (df : Frame) :
  (forall d s, map fst (step d s) = map fst d) ->
  map fst (fold_left step l df) = map fst df.
Proof.
  intro Hstep. revert df. induction l as [|s l IH]; intro df; simpl;
    [reflexivity|].
  now rewrite IH, Hstep.
Qed.

Lemma add_ewm_team_rows (df : Frame) (m : string * (RawRow -> num)) :
  map fst (add_ewm_team df m) = map fst df.
Proof. unfold add_ewm_team. apply assign_rows, ewm_team_length. Qed.

Lemma add_ewm_matchup_rows (df : Frame) (m : string * (RawRow -> num)) :
  map fst (add_ewm_matchup df m) = map fst df.
Proof. unfold add_ewm_matchup. apply assign_rows, ewm_matchup_length. Qed.

Lemma fill_means_rows (df : Frame) (col : string) :
  map fst (fill_means df col) = map fst df.
Proof.
  unfold fill_means.
  rewrite assign_rows.
  - apply assign_rows. apply (map_snd_length col), fill_team_mean_keys.
  - apply (map_snd_length col). unfold fill_column_mean. apply fill_scalar_keys.
Qed.

Lemma fill_zero_rows (df : Frame) (col : string) :
  map fst (fill_zero df col) = map fst df.
Proof.
  unfold fill_zero. apply assign_rows.
  apply (map_snd_length col), fill_scalar_keys.
Qed.

Lemma fill_missing_rows (df : Frame) :
  map fst (fill_missing df) = map fst df.
Proof.
  unfold fill_missing.
  rewrite (fold_rows fill_zero) by apply fill_zero_rows.
  apply (fold_rows fill_means). apply fill_means_rows.
Qed.

Lemma prepare_dataset_rows (csv : list RawRow) :
  map (fun r : Row => raw r) (_prepare_dataset csv)
  = map fst (sort_values (on_row by_team_date)
               (derive_matchup (derive_team csv))).
Proof.
  unfold _prepare_dataset. rewrite map_map.
  change (map (fun x => raw (rename x))) with (map (@fst RawRow (Dict num))).
  apply fill_missing_rows.
Qed.

(** X10: [_prepare_dataset] neither drops nor repeats a line of the csv: the
    rows of the table are the csv lines in another order. *)
Theorem prepare_dataset_keeps_every_row (csv : list RawRow) :
  Permutation csv (map (fun r : Row => raw r) (_prepare_dataset csv)) /\
  List.length (_prepare_dataset csv) = List.length csv.
Proof.
  assert (P : Permutation csv
                (map (fun r : Row => raw r) (_prepare_dataset csv))).
  { rewrite prepare_dataset_rows.
    eapply perm_trans; [|apply Permutation_map, sort_values_perm].
    unfold derive_matchup.
    rewrite (fold_rows add_ewm_matchup) by apply add_ewm_matchup_rows.
    eapply perm_trans; [|apply Permutation_map, sort_values_perm].
    unfold derive_team.
    rewrite (fold_rows add_ewm_team) by apply add_ewm_team_rows.
    eapply perm_trans; [|apply Permutation_map, sort_values_perm].
    rewrite map_map. simpl. rewrite map_id. apply Permutation_refl. }
  split; [exact P|].
  apply Permutation_length in P. rewrite length_map in P. now symmetry.
Qed.

Lemma string_ltb_lt (a b : string) :
  String.ltb a b = true <-> OrderedTypeEx.String_as_OT.lt a b.
Proof.
  unfold String.ltb. rewrite <- OrderedTypeEx.String_as_OT.cmp_lt.
  unfold OrderedTypeEx.String_as_OT.cmp.
  destruct (String.compare a b); split; intro H; try reflexivity;
    discriminate.
Qed.

Lemma string_trichotomy (a b : string) :
  a = b \/ String.ltb a b = true \/ String.ltb b a = true.
Proof.
  destruct (String.compare a b) eqn:E.
  - left. now apply OrderedTypeEx.String_as_OT.cmp_eq.
  - right; left. unfold String.ltb. now rewrite E.
  - right; right. unfold String.ltb.
    rewrite String.compare_antisym, E. reflexivity.
Qed.

Lemma string_ltb_neq (a b : string) : String.ltb a b = true -> a <> b.
Proof.
  intros H E. apply string_ltb_lt in H.
  now apply OrderedTypeEx.String_as_OT.lt_not_eq in H.
Qed.

Lemma string_ltb_trans (a b c : string) :
  String.ltb a b = true -> String.ltb b c = true -> String.ltb a c = true.
Proof.
  rewrite !string_ltb_lt. apply OrderedTypeEx.String_as_OT.lt_trans.
Qed.

Lemma by_team_date_iff (r1 r2 : RawRow) :
  by_team_date r1 r2 = true <->
  String.ltb (team r1) (team r2) = true
  \/ (team r1 = team r2 /\ (date r1 <= date r2)%Z).
Proof.
  unfold by_team_date.
  destruct (String.eqb (team r1) (team r2)) eqn:E.
  - apply String.eqb_eq in E. rewrite Z.leb_le. split.
    + intro H. right. now split.
    + intros [H|[_ H]]; [|exact H].
      exfalso. now apply (string_ltb_neq _ _ H).
  - apply String.eqb_neq in E. split.
    + intro H. now left.
    + intros [H|[H _]]; [exact H|contradiction].
Qed.

Lemma by_team_date_total (r1 r2 : RawRow) :
  by_team_date r1 r2 = true \/ by_team_date r2 r1 = true.
Proof.
  rewrite !by_team_date_iff.
  destruct (string_trichotomy (team r1) (team r2)) as [E|[H|H]].
  - destruct (Z.le_ge_cases (date r1) (date r2)).
    + left. right. now split.
    + right. right. split; [now symmetry|assumption].
  - left. now left.
  - right. now left.
Qed.

Lemma by_team_date_trans (r1 r2 r3 : RawRow) :
  by_team_date r1 r2 = true -> by_team_date r2 r3 = true ->
  by_team_date r1 r3 = true.
Proof.
  rewrite !by_team_date_iff.
  intros [H1|[E1 D1]] [H2|[E2 D2]].
  - left. eapply string_ltb_trans; eassumption.
  - left. now rewrite <- E2.
  - left. now rewrite E1.
  - right. split; [congruence|lia].
Qed.

(** X11: The table that [_prepare_dataset] returns is ordered by team name
    and, within a team, by date: of two rows the earlier one has the
    lexicographically smaller team, or the same team and a date that is
    not later. *)
Theorem prepare_dataset_sorted_by_team_then_date (csv : list RawRow) :
  StronglySorted
    (fun a b : Row =>
       String.ltb (team a) (team b) = true
       \/ (team a = team b /\ (date a <= date b)%Z))
    (_prepare_dataset csv).
Proof.
  assert (H : StronglySorted
                (fun a b : RawRow =>
                   String.ltb (team a) (team b) = true
                   \/ (team a = team b /\ (date a <= date b)%Z))
                (map (fun r : Row => raw r) (_prepare_dataset csv))).
  { rewrite prepare_dataset_rows. apply StronglySorted_map.
    pose proof (sort_values_sorted (on_row by_team_date)) as Hs.
    eapply StronglySorted_ind
      with (P := StronglySorted _);
      [constructor| |apply Hs].
    - intros a l _ IH Hall. constructor; [exact IH|].
      eapply Forall_impl; [|exact Hall].
      intros b Hb. now apply by_team_date_iff.
    - intros a b. apply by_team_date_total.
    - intros a b c. apply by_team_date_trans. }
  revert H. generalize (_prepare_dataset csv) as l.
  induction l as [|x l IH]; simpl; intro H; [constructor|].
  inversion H as [|? ? Hs Hall]; subst.
  constructor; [now apply IH|].
  apply Forall_forall. intros y Hy. rewrite Forall_forall in Hall.
  apply (Hall (raw y)). now apply (in_map (fun r : Row => raw r)).
Qed.

Lemma fill_missing_column (df : Frame) (name : string) :
  In name ewm_cols ->
  team_keyed name (fill_missing df)
  = fill_scalar (Some 0)
      (fill_column_mean (fill_team_mean (team_keyed name df))).
Proof.
  intro Hin. unfold fill_missing.
  rewrite (fold_step_same fill_zero (fill_scalar (Some 0))
             fill_zero_same fill_zero_other)
    by (exact ewm_cols_NoDup || exact Hin).
  f_equal.
  apply (fold_step_same fill_means
           (fun rows => fill_column_mean (fill_team_mean rows))
           fill_means_same fill_means_other);
    [exact ewm_cols_NoDup|exact Hin].
Qed.

Lemma fill_missing_no_NaN (df : Frame) (name : string) (rc : RawRow * Dict num) :
  In name ewm_cols -> In rc (fill_missing df) -> derived_cell rc name <> NaN.
Proof.
  intros Hname Hrc.
  assert (Hin : In (team (fst rc), derived_cell rc name)
                   (team_keyed name (fill_missing df))).
  { unfold team_keyed.
    apply (in_map (fun rc => (team (fst rc), dict_get (snd rc) name NaN))).
    exact Hrc. }
  rewrite fill_missing_column in Hin by exact Hname.
  unfold fill_scalar in Hin. apply in_map_iff in Hin.
  destruct Hin as (kv & E & _). injection E as _ E. rewrite <- E.
  destruct (snd kv); discriminate.
Qed.

Lemma prepare_dataset_cells (csv : list RawRow) (r : Row) :
  In r (_prepare_dataset csv) ->
  Forall (fun cell => cell <> NaN) (form_cells r).
Proof.
  unfold _prepare_dataset. intro H. apply in_map_iff in H.
  destruct H as (rc & <- & Hrc).
  assert (Hcell : forall name, In name ewm_cols -> derived_cell rc name <> NaN)
    by (intros name Hname; now apply (fill_missing_no_NaN _ name rc Hname Hrc)).
  unfold form_cells, rename. simpl.
  repeat constructor; apply Hcell; simpl; tauto.
Qed.

(** X12: After [_prepare_dataset] no row has a NaN in any of its eight form
    columns, whatever the csv holds. *)
Theorem prepare_dataset_forms_never_NaN (csv : list RawRow) (r : Row) :
  In r (_prepare_dataset csv) ->
  Forall (fun cell => cell <> NaN) (form_cells r).
Proof. apply prepare_dataset_cells. Qed.

Lemma prepare_dataset_forms_never_NaN_witness :
  In (mkRow (raw_row 1 "B" "C" 0 1)
            (Some 4) (Some 0) (Some 4) (Some 0)
            (Some 4) (Some 0) (Some 4) (Some 0))
     (map (fun r : Row =>
             mkRow (raw r)
               (option_map Qred (gm_form r)) (option_map Qred (ga_form r))
               (option_map Qred (xg_form r)) (option_map Qred (xga_form r))
               (option_map Qred (gf_vs_opp r)) (option_map Qred (ga_vs_opp r))
               (option_map Qred (xg_vs_opp r)) (option_map Qred (xga_vs_opp r)))
          (_prepare_dataset two_team_csv)) /\
  Forall (fun r : Row => Forall (fun cell => cell <> NaN) (form_cells r))
         (_prepare_dataset two_team_csv).
Proof.
  split.
  - vm_compute. right. right. left. reflexivity.
  - apply Forall_forall. intros r Hr.
    exact (prepare_dataset_forms_never_NaN two_team_csv r Hr).
Defined.

(** ** What reaches the encoder *)

Lemma dict_get_no_NaN (d : Dict num) (k : string) :
  (forall k' v, dict_lookup d k' = Some v -> v <> NaN) ->
  dict_get d k (Some 0) <> NaN.
Proof.
  intro H. unfold dict_get. destruct (dict_lookup d k) as [v|] eqn:E.
  - now apply (H k).
  - discriminate.
Qed.

Section CleanService.
Variable self : PredictorService.
Hypothesis rows_clean :
    forall r, In r (df self) -> Forall (fun cell => cell <> NaN) (form_cells r).
Hypothesis defaults_clean :
    forall k v, dict_lookup (default_forms self) k = Some v -> v <> NaN.

Lemma team_form_no_NaN (t k : string) (x : num) :
    In (k, x) (_get_team_form self t) -> x <> NaN.
  Proof.
    unfold _get_team_form.
    pose proof (latest_row_spec
                  (filter (fun r : Row => String.eqb (team r) t) (df self))) as H.
    destruct (iloc_last _) as [latest|].
    - destruct H as [Hin _]. apply filter_In in Hin. destruct Hin as [Hin _].
      pose proof (rows_clean latest Hin) as Hc. unfold form_cells in Hc.
      repeat match goal with
             | H : Forall _ (_ :: _) |- _ => inversion H; subst; clear H
             end.
      simpl. intros [E|[E|[E|[E|[]]]]]; injection E as _ <-; assumption.
    - simpl. intros [E|[E|[E|[E|[]]]]]; injection E as _ <-;
        now apply dict_get_no_NaN.
  Qed.

Lemma matchup_form_no_NaN (t o k : string) (x : num) (d : Dict num) :
    _get_matchup_form self t o = Ok d -> In (k, x) d -> x <> NaN.
  Proof.
    unfold _get_matchup_form.
    pose proof (latest_row_spec
                  (filter (fun r : Row =>
                             String.eqb (team r) t && String.eqb (opponent r) o)
                          (df self))) as H.
    destruct (iloc_last _) as [latest|].
    - destruct H as [Hin _]. apply filter_In in Hin. destruct Hin as [Hin _].
      pose proof (rows_clean latest Hin) as Hc. unfold form_cells in Hc.
      repeat match goal with
             | H : Forall _ (_ :: _) |- _ => inversion H; subst; clear H
             end.
      intro E. injection E as <-.
      simpl. intros [E|[E|[E|[E|[]]]]]; injection E as _ <-; assumption.
    - destruct (team_form_keys self t) as (a & b & c & e & E).
      pose proof (team_form_no_NaN t) as Ht. rewrite E in Ht. rewrite E.
      simpl. intro E'. injection E' as <-.
      intros [E'|[E'|[E'|[E'|[]]]]]; injection E' as _ <-.
      + apply (Ht "gm_form"%string). simpl. tauto.
      + apply (Ht "ga_form"%string). simpl. tauto.
      + apply (Ht "xg_form"%string). simpl. tauto.
      + apply (Ht "xga_form"%string). simpl. tauto.
  Qed.

Lemma feature_row_no_NaN (t o v f opf : string) :
    exists row,
      _build_feature_row self t o v f opf = Ok row /\
      forall k x, In (k, VNum x) row -> x <> NaN.
  Proof.
    destruct (feature_row_explicit self t o v f opf)
      as (gm & ga & xg & xga & gfo & gao & xgo & xgao & E1 & E2 & E3).
    eexists. split; [exact E3|].
    pose proof (team_form_no_NaN t) as Ht. rewrite E1 in Ht.
    pose proof (matchup_form_no_NaN t o) as Hm.
    specialize (fun k x => Hm k x _ E2).
    intros k x Hin. simpl in Hin.
    repeat (destruct Hin as [Hin|Hin]; [try discriminate Hin|]);
      try contradiction;
      injection Hin as _ <-.
    - apply (Ht "gm_form"%string). simpl. tauto.
    - apply (Ht "ga_form"%string). simpl. tauto.
    - apply (Ht "xg_form"%string). simpl. tauto.
    - apply (Ht "xga_form"%string). simpl. tauto.
    - apply (Hm "gf_vs_opp"%string). simpl. tauto.
    - apply (Hm "ga_vs_opp"%string). simpl. tauto.
    - apply (Hm "xg_vs_opp"%string). simpl. tauto.
    - apply (Hm "xga_vs_opp"%string). simpl. tauto.
  Qed.
End CleanService.

Lemma init_shape (fs : Files) (s : PredictorService) :
  __init__ fs = Ok s ->
  exists csv,
    matches_csv fs = Some csv /\
    df s = _prepare_dataset csv /\
    default_forms s = compute_default_forms (_prepare_dataset csv).
Proof.
  unfold __init__.
  destruct (matches_csv fs) as [csv|]; simpl; [|discriminate].
  destruct (preprocessor_pkl fs) as [pre|]; simpl; [|discriminate].
  destruct (model_gf_pkl fs) as [mgf|]; simpl; [|discriminate].
  destruct (model_ga_pkl fs) as [mga|]; simpl; [|discriminate].
  intro H. injection H as <-. exists csv. repeat split; reflexivity.
Qed.

(** X13: On a service built by [__init__], whatever the five labels,
    [_build_feature_row] returns a row whose eight numeric features are
    all numbers: the encoder never receives a NaN, also for teams that
    the table does not know. *)
Theorem constructed_service_features_never_NaN
  (fs : Files) (s : PredictorService) (t o v f opf : string) :
  __init__ fs = Ok s ->
  exists row,
    _build_feature_row s t o v f opf = Ok row /\
    forall k x, In (k, VNum x) row -> x <> NaN.
Proof.
  intro H. destruct (init_shape fs s H) as (csv & _ & Ed & Edef).
  apply (feature_row_no_NaN s).
  - intros r Hr. rewrite Ed in Hr.
    exact (prepare_dataset_cells csv r Hr).
  - intros k x Hk. rewrite Edef in Hk.
    exact (compute_default_forms_no_NaN (_prepare_dataset csv) k x Hk).
Qed.

Lemma constructed_service_features_never_NaN_witness :
  exists s row,
    __init__ sample_files = Ok s /\
    _build_feature_row s "B" "Napoli" "Home" "4-3-3" "3-5-2" = Ok row /\
    forall k x, In (k, VNum x) row -> x <> NaN.
Proof.
  set (s := mkService (_prepare_dataset two_team_csv)
              (preprocessor_pkl sample_files) (model_gf_pkl sample_files)
              (model_ga_pkl sample_files)
              (compute_default_forms (_prepare_dataset two_team_csv))).
  assert (E : __init__ sample_files = Ok s) by reflexivity.
  destruct (constructed_service_features_never_NaN sample_files s
              "B" "Napoli" "Home" "4-3-3" "3-5-2" E) as (row & Hrow & Hclean).
  exists s, row. split; [exact E|]. split; assumption.
Defined.

(** ** Where the derived columns are NaN *)

Lemma ewm_step_observed (a : Q) (st : ewm_state) (cur : num) :
  weighted st <> None -> (1 <= nobs st)%nat ->
  weighted (ewm_step a st cur) <> None /\ (1 <= nobs (ewm_step a st cur))%nat.
Proof.
  intros Hw Hn. unfold ewm_step.
  destruct (weighted st) as [w|]; [|contradiction].
  destruct cur as [c|]; simpl; split; try discriminate; lia.
Qed.

Lemma ewm_scan_observed (a : Q) (st : ewm_state) (vals : list num) :
  weighted st <> None -> (1 <= nobs st)%nat ->
  Forall (fun cell => cell <> NaN) (ewm_scan a 1 st vals).
Proof.
  revert st. induction vals as [|cur vals IH]; intros st Hw Hn;
    [constructor|].
  rewrite ewm_scan_cons.
  destruct (ewm_step_observed a st cur Hw Hn) as [Hw' Hn'].
  constructor; [|now apply IH].
  apply Nat.leb_le in Hn'. rewrite Hn'. exact Hw'.
Qed.

Lemma ewm_mean_after_first_value (a x : Q) (vals : list num) :
  ewm_mean a 1 (NaN :: Some x :: vals)
  = NaN :: Some x :: ewm_scan a 1 (mkEwm (Some x) 1 1) vals /\
  Forall (fun cell => cell <> NaN) (ewm_scan a 1 (mkEwm (Some x) 1 1) vals).
Proof.
  split; [reflexivity|].
  apply ewm_scan_observed; simpl; [discriminate|lia].
Qed.

(** X14: When the first two rows of the frame belong to one team and the
    first of them has a value, the team-level column is NaN in the very
    first row of the frame and nowhere else: the first rows of all later
    teams get a number, so the team-mean fill that follows finds a
    single missing cell. *)
Theorem team_column_NaN_only_in_first_row
  (col : RawRow -> num) (df : Frame) (k : string) (x : Q) (v : num)
  (rest : list (string * num)) :
  keyed team col df = (k, Some x) :: (k, v) :: rest ->
  exists cells,
    ewm_team col df = NaN :: Some x :: cells /\
    List.length cells = List.length rest /\
    Forall (fun cell => cell <> NaN) cells.
Proof.
  intro E. unfold ewm_team. rewrite E.
  unfold groupby_shift. simpl shift_from. rewrite String.eqb_refl.
  destruct (ewm_mean_after_first_value (alpha_of_span 5) x
              (shift_from String.eqb [(k, v); (k, Some x)] rest)) as [E1 E2].
  eexists. split; [exact E1|]. split; [|exact E2].
  now rewrite ewm_scan_length, shift_from_length.
Qed.

Lemma team_column_NaN_only_in_first_row_witness :
  keyed team gf (derive_team two_team_csv)
  = [("A", Some 4); ("A", Some 4); ("B", Some 0); ("B", Some 0)]%string /\
  exists cells,
    ewm_team gf (derive_team two_team_csv) = NaN :: Some 4 :: cells /\
    List.length cells = 2%nat /\
    Forall (fun cell => cell <> NaN) cells.
Proof.
  assert (E : keyed team gf (derive_team two_team_csv)
              = [("A", Some 4); ("A", Some 4); ("B", Some 0); ("B", Some 0)]%string)
    by reflexivity.
  split; [exact E|].
  exact (team_column_NaN_only_in_first_row gf (derive_team two_team_csv)
           "A" 4 (Some 4) [("B", Some 0); ("B", Some 0)]%string E).
Defined.

(** X15: On a frame whose rows all belong to one team and all carry a value,
    the team-level column is, row by row, the recurrence [e0 = x0],
    [e(i) = a x(i) + (1 - a) e(i-1)] with [a = 2 / (5 + 1)] over the
    values of the rows strictly before, and NaN in the first row. *)
Theorem team_column_of_one_team
  (col : RawRow -> num) (df : Frame) (k : string) (xs : list Q) :
  keyed team col df = map (fun x => (k, Some x)) xs ->
  col_eqb (ewm_team col df)
          (map (fun i => spec_ewm (alpha_of_span 5) (firstn i xs))
               (seq 0 (List.length xs))) = true.
Proof.
  intro E. unfold ewm_team. rewrite E.
  pose proof (ewm_single_group_agrees String.eqb k (String.eqb_refl k)
                (alpha_of_span 5) xs) as H.
  unfold spec_form_column in H. rewrite length_map in H.
  rewrite (map_ext_in (spec_form String.eqb (alpha_of_span 5)
                         (map (fun x => (k, x)) xs))
                      (fun i => spec_ewm (alpha_of_span 5) (firstn i xs))) in H.
  - exact H.
  - intros i Hi. apply in_seq in Hi.
    rewrite (spec_form_single_group String.eqb k (String.eqb_refl k))
      by lia.
    reflexivity.
Qed.

Lemma team_column_of_one_team_witness :
  keyed team gf one_team_frame
  = map (fun x => ("Inter"%string, Some x)) [1; 3; 2] /\
  col_eqb (ewm_team gf one_team_frame)
          (map (fun i => spec_ewm (alpha_of_span 5) (firstn i [1; 3; 2])) (seq 0 3))
  = true /\
  col_eqb (ewm_team gf one_team_frame) [NaN; Some 1; Some (5 # 3)] = true.
Proof.
  assert (E : keyed team gf one_team_frame
              = map (fun x => ("Inter"%string, Some x)) [1; 3; 2])
    by reflexivity.
  split; [exact E|].
  split; [exact (team_column_of_one_team gf one_team_frame "Inter" [1; 3; 2] E)|].
  vm_compute. reflexivity.
Defined.

(** ** [team_summary] *)












Example team_summary_sample :
  map (fun rec => (s_team rec, s_matches rec)) (team_summary sample_service)
  = [("Inter", 2%nat); ("Juventus", 1%nat); ("Milan", 1%nat)]%string /\
  map (fun rec => num_eqb (s_win_rate rec) (Some 50)) (team_summary sample_service)
  = [true; false; false] /\
  map (fun rec => Qeq_bool (s_goal_diff rec) 1) (team_summary sample_service)
  = [true; false; false].
Proof. repeat split; vm_compute; reflexivity. Qed.

(** ** The scoreline of [predict] *)

(** X17: On a service with its three artifacts [predict] returns a record
    that repeats the five labels it was given; both rounded scores lie
    between 0 and 15; and the result is "W" exactly when the rounded
    goals-for is the greater, "L" exactly when it is the smaller, "D"
    exactly when the two are equal. *)
Theorem predict_scoreline_in_range
  d pre mgf mga dflt (t o v f opf : string) :
  exists p,
    predict (mkService d (Some pre) (Some mgf) (Some mga) dflt) t o v f opf
    = Ok p /\
    (p_team p, p_opponent p, p_venue p, p_formation p, p_opp_formation p)
    = (t, o, v, f, opf) /\
    (0 <= pred_goals_for_round p <= 15)%Z /\
    (0 <= pred_goals_against_round p <= 15)%Z /\
    (p_result p = "W"%string <->
     (pred_goals_for_round p > pred_goals_against_round p)%Z) /\
    (p_result p = "L"%string <->
     (pred_goals_for_round p < pred_goals_against_round p)%Z) /\
    (p_result p = "D"%string <->
     pred_goals_for_round p = pred_goals_against_round p).
Proof.
  destruct (predict_loaded d pre mgf mga dflt t o v f opf) as (row & _ & E).
  eexists. split; [exact E|]. cbv zeta.
  cbn [p_team p_opponent p_venue p_formation p_opp_formation
       pred_goals_for_round pred_goals_against_round p_result].
  rewrite !round_field.
  set (a := Z.max 0 (Z.min 15 (round_half_even (mgf (pre row))))).
  set (b := Z.max 0 (Z.min 15 (round_half_even (mga (pre row))))).
  split; [reflexivity|].
  split; [subst a; lia|]. split; [subst b; lia|].
  destruct (Z.ltb_spec b a) as [Hba|Hba].
  - repeat split; intro H; try reflexivity; try discriminate H; lia.
  - destruct (Z.ltb_spec a b) as [Hab|Hab].
    + repeat split; intro H; try reflexivity; try discriminate H; lia.
    + repeat split; intro H; try reflexivity; try discriminate H; lia.
Qed.
